(** * SVM decision-boundary plotting helpers of the notebook
      "Part 2. Supervised learning"

    The notebook defines two functions of its own,
    [plot_svc_decision_function] and [plot_svm]; everything else is a call
    into numpy, matplotlib.pyplot or scikit-learn.  This development embeds
    the two functions over an explicit model of the state they act on:

    - the pyplot state machine (figures, axes, the "current" axes),
    - the heap of classifier objects ([SVC] instances are mutated by [fit]),
    - a chronological trace of the calls made into scikit-learn.

    Python floats are idealised as exact rationals ([Q]); equality of
    computed samples is therefore stated with [==] where numpy would round.
    Exceptions keep the side effects performed before they were raised, as
    in Python. *)

From Stdlib Require Import QArith Qminmax ZArith List String Lia.
From stdpp Require Import base list.
Import ListNotations.

(** ** Values *)

Definition point : Type := Q * Q.
Definition label : Type := nat.

Inductive Exn : Type :=
| ValueError
| IndexError
| AttributeError
| NotFittedError.

Inductive Result (A : Type) : Type :=
| Ok (a : A)
| Raise (e : Exn).
Arguments Ok {A} a.
Arguments Raise {A} e.

(** ** numpy *)

Module np.

Local Open Scope Q_scope.

Definition arange (num : nat) : list Q :=
  map (fun k => inject_Z (Z.of_nat k)) (seq 0 num).

(** [np.linspace(start, stop, num)] with [endpoint=True]: the samples are
    [arange(num) * step + start], and the last one is overwritten with
    [stop] itself. *)
Definition linspace (start stop : Q) (num : nat) : list Q :=
  let div := inject_Z (Z.of_nat (num - 1)) in
  let delta := stop - start in
  let y := arange num in
  let y :=
    if (0 <? num - 1)%nat then
      let step := delta / div in
      if Qeq_bool step 0
      then map (fun t => t / div * delta) y
      else map (fun t => t * step) y
    else map (fun t => t * delta) y in
  let y := map (fun t => t + start) y in
  if (1 <? num)%nat then <[(num - 1)%nat := stop]> y else y.

(** [np.meshgrid(a, b)] with the default ['xy'] indexing: both outputs have
    shape [(len b, len a)]; the first repeats [a] along every row, the
    second holds [b[i]] all along row [i]. *)
Definition meshgrid (a b : list Q) : list (list Q) * list (list Q) :=
  (map (fun _ => a) b, map (fun bi => map (fun _ => bi) a) b).

Definition zeros_like (A : list (list Q)) : list (list Q) :=
  map (map (fun _ => 0)) A.

(** [A[i, j] = v] where [v] is an array: numpy accepts it only when [v]
    has exactly one element, and the indices must be in range. *)
Definition setitem (A : list (list Q)) (i j : nat) (v : list Q)
  : Result (list (list Q)) :=
  match v with
  | [s] =>
      match A !! i with
      | Some row =>
          if (j <? length row)%nat
          then Ok (<[i := <[j := s]> row]> A)
          else Raise IndexError
      | None => Raise IndexError
      end
  | _ => Raise ValueError
  end.

(** [enumerate(l)] *)
Definition enumerate {A} (l : list A) : list (nat * A) :=
  combine (seq 0 (length l)) l.

(** [X[:, 0]] and [X[:, 1]] of an n-by-2 array. *)
Definition col0 (X : list point) : list Q := map fst X.
Definition col1 (X : list point) : list Q := map snd X.

(** [l[:N]] for a Python integer [N]: a negative bound counts from the
    end, and bounds are clipped to the array. *)
Definition slice_to {A} (l : list A) (N : Z) : list A :=
  if (N <? 0)%Z
  then take (Z.to_nat (Z.of_nat (length l) + N)) l
  else take (Z.to_nat N) l.

End np.


(** The sample of index [k] of [num] evenly spaced samples over
    [[start, stop]]: consecutive samples differ by [(stop - start) / (num - 1)]. *)
Definition sample (start stop : Q) (num k : nat) : Q :=
  (start + inject_Z (Z.of_nat k)
           * ((stop - start) / inject_Z (Z.of_nat (num - 1))))%Q.

(** ** The objects the notebook's functions act on *)

(** A fitted support vector classifier: its decision score at a 2D point and
    the training points it retained as support vectors. *)
Record Model : Type := mkModel {
  score : point -> Q;
  support_vectors : list point
}.

Inductive Kernel : Type := Linear | Rbf.

(** An [SVC] instance; [fit] fills in [fitted]. *)
Record SVC : Type := mkSVC {
  kernel : Kernel;
  fitted : option Model
}.

(** The [c=] argument of [scatter]: an array of class labels mapped through
    a colormap, or a color name. *)
Inductive ColorSpec : Type :=
| ByLabel (c : list label)
| Named (name : string).

(** What has been drawn on an axes, with the arguments of the call. *)
Inductive Artist : Type :=
| PathCollection (xs ys : list Q) (c : ColorSpec) (s : Q)
    (cmap : option string) (linewidths : option Q) (edgecolors : option string)
| ContourSet (X Y P : list (list Q)) (colors : string) (levels : list Q)
    (alpha : Q) (linestyles : list string).

Record Axes : Type := mkAxes {
  view_x : Q * Q;
  view_y : Q * Q;
  autoscalex_on : bool;
  autoscaley_on : bool;
  artists : list Artist
}.

(** Calls into scikit-learn, in the order they were made. *)
Inductive Event : Type :=
| CallMakeBlobs (n_samples centers random_state : nat) (cluster_std : Q)
| CallFit (clf : nat) (X : list point) (y : list label)
| CallDecisionFunction (clf : nat) (rows : list point).

(** The state of the interpreter that the two functions can reach.  Axes and
    classifiers are objects: they live in a store and are named by their
    index.  [figs] lists the open figures, the current one first; a figure is
    the stack of its axes, the current one first. *)
Record World : Type := mkWorld {
  axes : list Axes;
  figs : list (list nat);
  heap : list SVC;
  trace : list Event
}.

Definition with_axes (w : World) (a : list Axes) : World :=
  mkWorld a (figs w) (heap w) (trace w).
Definition with_figs (w : World) (f : list (list nat)) : World :=
  mkWorld (axes w) f (heap w) (trace w).
Definition with_heap (w : World) (h : list SVC) : World :=
  mkWorld (axes w) (figs w) h (trace w).
Definition log (w : World) (e : Event) : World :=
  mkWorld (axes w) (figs w) (heap w) (trace w ++ [e]).

(** The library behaviour the notebook relies on but does not contain:
    matplotlib's autoscaling of the view limits from what is drawn on an
    axes, scikit-learn's blob generator as a function of its arguments (the
    seed included), and the SVM solver. *)
Class Libraries : Type := mkLibraries {
  autoscale_view : list Artist -> (Q * Q) * (Q * Q);
  blobs : nat -> nat -> nat -> Q -> list point * list label;
  libsvm_train : Kernel -> list point -> list label -> Result Model
}.

(** ** Computations: state and exceptions *)

Definition M (A : Type) : Type := World -> Result A * World.

#[export] Instance M_ret : MRet M := fun A a w => (Ok a, w).

#[export] Instance M_bind : MBind M := fun A B f m w =>
  match m w with
  | (Ok a, w') => f a w'
  | (Raise e, w') => (Raise e, w')
  end.

Definition raise {A} (e : Exn) : M A := fun w => (Raise e, w).

Definition lift {A} (r : Result A) : M A := fun w => (r, w).

(** [for a in l: s = body(s, a)] *)
Fixpoint for_each {A S} (l : list A) (body : S -> A -> M S) (s : S) : M S :=
  match l with
  | [] => mret s
  | a :: l' => s' ← body s a; for_each l' body s'
  end.

(** ** matplotlib *)

Definition default_axes : Axes := mkAxes (0, 1)%Q (0, 1)%Q true true [].

(** Methods of an axes object [h]. *)
Module Ax.
Section with_libraries.
Context `{Libraries}.

Definition get (h : nat) : M Axes := fun w =>
  match axes w !! h with
  | Some a => (Ok a, w)
  | None => (Raise AttributeError, w)
  end.

Definition put (h : nat) (a : Axes) : M unit := fun w =>
  (Ok tt, with_axes w (<[h := a]> (axes w))).

Definition get_xlim (h : nat) : M (Q * Q) := a ← get h; mret (view_x a).
Definition get_ylim (h : nat) : M (Q * Q) := a ← get h; mret (view_y a).

(** [set_xlim(left, right)] also switches autoscaling off for the axis. *)
Definition set_xlim (h : nat) (lim : Q * Q) : M (Q * Q) :=
  a ← get h;
  put h (mkAxes lim (view_y a) false (autoscaley_on a) (artists a));;
  mret lim.

Definition set_ylim (h : nat) (lim : Q * Q) : M (Q * Q) :=
  a ← get h;
  put h (mkAxes (view_x a) lim (autoscalex_on a) false (artists a));;
  mret lim.

(** Drawing adds the artist and rescales the axes still on autoscale. *)
Definition draw (a : Axes) (art : Artist) : Axes :=
  let arts := artists a ++ [art] in
  let v := autoscale_view arts in
  mkAxes (if autoscalex_on a then fst v else view_x a)
         (if autoscaley_on a then snd v else view_y a)
         (autoscalex_on a) (autoscaley_on a) arts.

Definition add_artist (h : nat) (art : Artist) : M unit :=
  a ← get h; put h (draw a art).

Definition scatter (h : nat) (xs ys : list Q) (c : ColorSpec) (s : Q)
    (cmap : option string) (linewidths : option Q)
    (edgecolors : option string) : M unit :=
  add_artist h (PathCollection xs ys c s cmap linewidths edgecolors).

Definition contour (h : nat) (X Y P : list (list Q)) (colors : string)
    (levels : list Q) (alpha : Q) (linestyles : list string) : M unit :=
  add_artist h (ContourSet X Y P colors levels alpha linestyles).
End with_libraries.
End Ax.

(** The pyplot state machine. *)
Module plt.
Section with_libraries.
Context `{Libraries}.

(** [plt.figure()]: a new figure, without axes, becomes current. *)
Definition figure : M unit := fun w => (Ok tt, with_figs w ([] :: figs w)).

(** [plt.gca()]: the current axes of the current figure; a figure, and
    an axes on it, are created when there is none. *)
Definition gca : M nat := fun w =>
  match figs w with
  | (a :: _) :: _ => (Ok a, w)
  | [] :: fs =>
      let a := length (axes w) in
      (Ok a, with_figs (with_axes w (axes w ++ [default_axes])) ([a] :: fs))
  | [] =>
      let a := length (axes w) in
      (Ok a, with_figs (with_axes w (axes w ++ [default_axes])) [[a]])
  end.

(** [plt.xlim()] reads the limits of the current axes, [plt.xlim(l, r)]
    sets them. *)
Definition xlim (args : option (Q * Q)) : M (Q * Q) :=
  ax ← gca;
  match args with
  | None => Ax.get_xlim ax
  | Some lim => Ax.set_xlim ax lim
  end.

Definition ylim (args : option (Q * Q)) : M (Q * Q) :=
  ax ← gca;
  match args with
  | None => Ax.get_ylim ax
  | Some lim => Ax.set_ylim ax lim
  end.

Definition scatter (xs ys : list Q) (c : ColorSpec) (s : Q)
    (cmap : option string) (linewidths : option Q)
    (edgecolors : option string) : M unit :=
  ax ← gca; Ax.scatter ax xs ys c s cmap linewidths edgecolors.
End with_libraries.
End plt.

(** ** scikit-learn *)

Module sklearn.
Section with_libraries.
Context `{Libraries}.

Definition emit (e : Event) : M unit := fun w => (Ok tt, log w e).

Definition make_blobs (n_samples centers random_state : nat)
    (cluster_std : Q) : M (list point * list label) :=
  emit (CallMakeBlobs n_samples centers random_state cluster_std);;
  mret (blobs n_samples centers random_state cluster_std).

(** [SVC(kernel=k)]: a new, unfitted classifier object. *)
Definition SVC_ (k : Kernel) : M nat := fun w =>
  (Ok (length (heap w)), with_heap w (heap w ++ [mkSVC k None])).

Definition get (clf : nat) : M SVC := fun w =>
  match heap w !! clf with
  | Some o => (Ok o, w)
  | None => (Raise AttributeError, w)
  end.

(** [clf.fit(X, y)] stores the trained model in the object. *)
Definition put (clf : nat) (o : SVC) : M unit := fun w =>
  (Ok tt, with_heap w (<[clf := o]> (heap w))).

Definition fit (clf : nat) (X : list point) (y : list label) : M unit :=
  o ← get clf;
  emit (CallFit clf X y);;
  m ← lift (libsvm_train (kernel o) X y);
  put clf (mkSVC (kernel o) (Some m)).

(** [clf.decision_function(rows)]: one score per row. *)
Definition decision_function (clf : nat) (rows : list point)
  : M (list Q) :=
  o ← get clf;
  emit (CallDecisionFunction clf rows);;
  match fitted o with
  | Some m => mret (map (score m) rows)
  | None => raise NotFittedError
  end.

(** [clf.support_vectors_] *)
Definition support_vectors_ (clf : nat) : M (list point) :=
  o ← get clf;
  match fitted o with
  | Some m => mret (support_vectors m)
  | None => raise AttributeError
  end.
End with_libraries.
End sklearn.

(** ** The notebook's functions *)

Section notebook.
Context `{Libraries}.

(** The two nested [for] loops of [plot_svc_decision_function]. *)
Definition fill_scores (clf : nat) (x y : list Q) (P : list (list Q))
  : M (list (list Q)) :=
  for_each (np.enumerate x) (fun P '(i, xi) =>
    for_each (np.enumerate y) (fun P '(j, yj) =>
      let point := [(xi, yj)] in
      v ← sklearn.decision_function clf point;
      lift (np.setitem P i j v)) P) P.

Definition plot_svc_decision_function (clf : nat) (ax : option nat)
  : M unit :=
  ax ← match ax with
       | None => plt.gca
       | Some a => mret a
       end;
  xl0 ← plt.xlim None;
  xl1 ← plt.xlim None;
  let x := np.linspace (fst xl0) (snd xl1) 30 in
  yl0 ← plt.ylim None;
  yl1 ← plt.ylim None;
  let y := np.linspace (fst yl0) (snd yl1) 30 in
  let '(Y, X) := np.meshgrid y x in
  let P := np.zeros_like X in
  P ← fill_scores clf x y P;
  Ax.contour ax X Y P "k" [-1; 0; 1]%Q 0.5%Q ["--"; "-"; "--"]%string.

Definition plot_svm (N : option Z) : M unit :=
  let N := default 10%Z N in
  '(X, y) ← sklearn.make_blobs 200 2 0 0.60%Q;
  let X := np.slice_to X N in
  let y := np.slice_to y N in
  clf ← sklearn.SVC_ Linear;
  sklearn.fit clf X y;;
  plt.figure;;
  plt.scatter (np.col0 X) (np.col1 X) (ByLabel y) 50%Q (Some "spring"%string)
    None None;;
  plt.xlim (Some (-1, 4)%Q);;
  plt.ylim (Some (-1, 6)%Q);;
  ax ← plt.gca;
  plot_svc_decision_function clf (Some ax);;
  sv ← sklearn.support_vectors_ clf;
  plt.scatter (np.col0 sv) (np.col1 sv) (Named "none") 200%Q None
    (Some 1%Q) (Some "k"%string).

End notebook.

(** ** What a run of the renderer is expected to produce *)

(** The scores of model [m] over the lattice of the samples [x] and [y]:
    row [i], column [j] holds the score at [(x_i, y_j)]. *)
Definition score_grid (m : Model) (x y : list Q) : list (list Q) :=
  map (fun xi => map (fun yj => score m (xi, yj)) y) x.

(** One call of [decision_function] per lattice point, on that point alone,
    rows first. *)
Definition score_calls (clf : nat) (x y : list Q) : list Event :=
  flat_map (fun xi => map (fun yj => CallDecisionFunction clf [(xi, yj)]) y) x.

(** Entry [(i, j)] of a 2D array. *)
Definition entry (A : list (list Q)) (i j : nat) : option Q :=
  row ← A !! i; row !! j.

(** matplotlib's reading of the line style and color codes used here. *)
Inductive LineStyle : Type := Solid | Dashed | DashDot | Dotted.

Definition linestyle_of (code : string) : option LineStyle :=
  if String.eqb code "-" then Some Solid
  else if String.eqb code "--" then Some Dashed
  else if String.eqb code "-." then Some DashDot
  else if String.eqb code ":" then Some Dotted
  else None.

(** Red, green and blue components of the single-letter color codes. *)
Definition rgb_of (code : string) : option (Q * Q * Q) :=
  (if String.eqb code "k" then Some (0, 0, 0)
   else if String.eqb code "w" then Some (1, 1, 1)
   else if String.eqb code "r" then Some (1, 0, 0)
   else if String.eqb code "g" then Some (0, 0.5, 0)
   else if String.eqb code "b" then Some (0, 0, 1)
   else None)%Q.

(** The contour set the renderer hands to matplotlib for model [m] when the
    limits it reads are [xl] and [yl]. *)
Definition decision_contour (m : Model) (xl yl : Q * Q) : Artist :=
  let x := np.linspace (fst xl) (snd xl) 30 in
  let y := np.linspace (fst yl) (snd yl) 30 in
  ContourSet (snd (np.meshgrid y x)) (fst (np.meshgrid y x)) (score_grid m x y)
    "k" [-1; 0; 1]%Q 0.5%Q ["--"; "-"; "--"]%string.

(** The fixed data set of the driver and the axes a successful run leaves
    behind, for the prefix [(X, y)] and the model [m] trained on it. *)
Definition dataset `{Libraries} : list point * list label :=
  blobs 200 2 0 0.60%Q.

Definition svm_axes (X : list point) (y : list label) (m : Model) : Axes :=
  mkAxes (-1, 4)%Q (-1, 6)%Q false false
    [PathCollection (np.col0 X) (np.col1 X) (ByLabel y) 50%Q
       (Some "spring"%string) None None;
     decision_contour m (-1, 4)%Q (-1, 6)%Q;
     PathCollection (np.col0 (support_vectors m)) (np.col1 (support_vectors m))
       (Named "none") 200%Q None (Some 1%Q) (Some "k"%string)].

(** The limits the renderer reads: those of the current axes, which
    [plt.gca] creates when there is none. *)
Definition current_extents `{Libraries} (w : World)
  : option ((Q * Q) * (Q * Q)) :=
  match plt.gca w with
  | (Ok h, w1) => a ← axes w1 !! h; Some (view_x a, view_y a)
  | (Raise _, _) => None
  end.

(** An axes passed as [ax] is one of the store. *)
Definition valid_ax (ax : option nat) (w : World) : bool :=
  match ax with
  | None => true
  | Some a => a <? length (axes w)
  end.

(** A call of [decision_function] on object [clf]. *)
Definition is_score_call (clf : nat) (e : Event) : Prop :=
  exists rows, e = CallDecisionFunction clf rows.

(** A computation that leaves every classifier as it is and talks to
    scikit-learn only through [decision_function] on [clf]. *)
Definition reads_scores_only {A} (clf : nat) (c : M A) : Prop :=
  forall w, heap (snd (c w)) = heap w
            /\ exists evs, trace (snd (c w)) = trace w ++ evs
                           /\ Forall (is_score_call clf) evs.

Arguments np.linspace : simpl never.
Arguments np.meshgrid : simpl never.
Arguments np.zeros_like : simpl never.

(** ** How the notebook calls the renderer *)

Section cells.
Context `{Libraries}.

(** The cell that shows a fitted classifier on its data:
    [plt.scatter(X[:, 0], X[:, 1], c=y, s=50, cmap='winter');
     plot_svc_decision_function(clf)], where [X], [y] and [clf] are the
    notebook's globals. *)
Definition scatter_then_boundary (X : list point) (y : list label)
    (clf : nat) : M unit :=
  plt.scatter (np.col0 X) (np.col1 X) (ByLabel y) 50%Q (Some "winter"%string)
    None None;;
  plot_svc_decision_function clf None.

(** What [plot_svm] fits for the count [N]: [X[:N]] and [y[:N]] of the
    fixed data set. *)
Definition driver_sample (N : option Z) : list point * list label :=
  (np.slice_to (fst dataset) (default 10%Z N),
   np.slice_to (snd dataset) (default 10%Z N)).

(** The cell that compares two sample counts: [plot_svm(); plot_svm(200)],
    for any two counts. *)
Definition plot_svm_twice (N1 N2 : option Z) : M unit :=
  plot_svm N1;; plot_svm N2.

End cells.

(** ** A small concrete library, to run the functions on *)

Module Toy.
Local Open Scope Q_scope.

Definition span (d : Q * Q) (l : list Q) : Q * Q :=
  fold_left (fun '(lo, hi) v => (Qmin lo v, Qmax hi v)) l d.

(** Limits hugging the scattered data, as [autoscale_view] does up to
    margins. *)
Definition autoscale (arts : list Artist) : (Q * Q) * (Q * Q) :=
  fold_left (fun '(vx, vy) art =>
               match art with
               | PathCollection (x :: xs) (y :: ys) _ _ _ _ _ =>
                   (span (Qmin (fst vx) x, Qmax (snd vx) x) xs,
                    span (Qmin (fst vy) y, Qmax (snd vy) y) ys)
               | _ => (vx, vy)
               end) arts ((0, 1), (0, 1)).

(** Two interleaved diagonal clusters; label [k mod centers]. *)
Definition blobs (n_samples centers random_state : nat) (cluster_std : Q)
  : list point * list label :=
  (map (fun k => (inject_Z (Z.of_nat (k mod 4)),
                  inject_Z (Z.of_nat (k mod 4 + 3 * (k mod centers)))))
       (seq 0 n_samples),
   map (fun k => (k mod centers)%nat) (seq 0 n_samples)).

(** Refuses one-class data, as scikit-learn does; otherwise a fixed line. *)
Definition train (k : Kernel) (X : list point) (y : list label)
  : Result Model :=
  match y with
  | [] => Raise ValueError
  | l :: y' =>
      if forallb (Nat.eqb l) y' then Raise ValueError
      else Ok (mkModel (fun p => snd p - fst p - (3 # 2)) (take 2 X))
  end.

Definition lib : Libraries := mkLibraries autoscale blobs train.

Definition line : Model := mkModel (fun p => snd p - fst p - (3 # 2)) [].

Definition empty : World := mkWorld [] [] [] [].

(** Two open figures with one axes each; the current axes is [1], with
    the default limits, and axes [0] shows the window [-1,4] x [-1,6]. *)
Definition two_figures : World :=
  mkWorld [mkAxes (-1, 4) (-1, 6) false false []; default_axes]
          [[1%nat]; [0%nat]]
          [mkSVC Linear (Some line)]
          [].

(** One axes that is on no open figure, and a fitted classifier. *)
Definition no_figure : World :=
  mkWorld [mkAxes (-1, 4) (-1, 6) false false []] []
          [mkSVC Linear (Some line)] [].

(** A current axes, and a classifier that was never fitted. *)
Definition unfitted : World :=
  mkWorld [default_axes] [[0%nat]] [mkSVC Linear None] [].

(** A current axes whose limits were set by hand, and a fitted classifier. *)
Definition window : World :=
  mkWorld [mkAxes (-1, 4) (-1, 6) false false []] [[0%nat]]
          [mkSVC Linear (Some line)] [].
End Toy.

(** * Properties *)

(** *** The model on concrete inputs *)

Example linspace_five :
  Forall2 Qeq (np.linspace 0 1 5) [0; 1 # 4; 1 # 2; 3 # 4; 1]%Q.
Proof. repeat constructor. Qed.

Example linspace_flat :
  Forall2 Qeq (np.linspace 2 2 3) [2; 2; 2]%Q.
Proof. repeat constructor. Qed.

Example linspace_single : Forall2 Qeq (np.linspace 2 7 1) [2]%Q.
Proof. repeat constructor. Qed.

Example meshgrid_shape :
  np.meshgrid [1; 2]%Q [10; 20; 30]%Q
  = ([[1; 2]; [1; 2]; [1; 2]]%Q, [[10; 10]; [20; 20]; [30; 30]]%Q).
Proof. reflexivity. Qed.

Example setitem_scalar :
  np.setitem [[0; 0]; [0; 0]]%Q 1 0 [5]%Q = Ok [[0; 0]; [5; 0]]%Q.
Proof. reflexivity. Qed.

Example setitem_sequence :
  np.setitem [[0; 0]; [0; 0]]%Q 1 0 [5; 6]%Q = Raise ValueError.
Proof. reflexivity. Qed.

Example setitem_out_of_range :
  np.setitem [[0; 0]; [0; 0]]%Q 2 0 [5]%Q = Raise IndexError.
Proof. reflexivity. Qed.

Example slice_to_count : np.slice_to [1; 2; 3]%nat 2 = [1; 2]%nat.
Proof. reflexivity. Qed.

Example slice_to_clipped : np.slice_to [1; 2; 3]%nat 10 = [1; 2; 3]%nat.
Proof. reflexivity. Qed.

Example slice_to_negative : np.slice_to [1; 2; 3]%nat (-1) = [1; 2]%nat.
Proof. reflexivity. Qed.

Example slice_to_very_negative : np.slice_to [1; 2; 3]%nat (-5) = [].
Proof. reflexivity. Qed.

(** The default call on the toy library draws on a new figure. *)
Example plot_svm_default_runs :
  fst (@plot_svm Toy.lib None Toy.empty) = Ok tt
  /\ figs (snd (@plot_svm Toy.lib None Toy.empty)) = [[0%nat]]
  /\ length (trace (snd (@plot_svm Toy.lib None Toy.empty))) = 902%nat.
Proof. vm_compute. repeat split. Qed.

(** One point has one class: the solver refuses and nothing is drawn. *)
Example plot_svm_one_point_raises :
  @plot_svm Toy.lib (Some 1%Z) Toy.empty
  = (Raise ValueError,
     mkWorld [] [] [mkSVC Linear None]
       [CallMakeBlobs 200 2 0 0.60%Q; CallFit 0 [(0, 0)%Q] [0%nat]]).
Proof. reflexivity. Qed.

(** A negative count is taken from the end of the data set. *)
Example plot_svm_negative_count :
  exists X y,
    trace (snd (@plot_svm Toy.lib (Some (-1)%Z) Toy.empty)) !! 1%nat
    = Some (CallFit 0 X y)
    /\ length X = 199%nat /\ length y = 199%nat.
Proof. eexists _, _. vm_compute. repeat split. Qed.

(** An unfitted classifier makes the renderer raise at the first point. *)
Example renderer_unfitted_raises :
  @plot_svc_decision_function Toy.lib 0%nat None
    (mkWorld [] [] [mkSVC Linear None] [])
  = (Raise NotFittedError,
     mkWorld [default_axes] [[0%nat]] [mkSVC Linear None]
       [CallDecisionFunction 0 [(0 # 29, 0 # 29)%Q]]).
Proof. vm_compute. reflexivity. Qed.

(** *** Facts about [np.linspace] *)

Section linspace_facts.
Local Open Scope Q_scope.

Lemma arange_length num : length (np.arange num) = num.
Proof. unfold np.arange. now rewrite length_map, length_seq. Qed.

Lemma arange_lookup num k :
  (k < num)%nat -> np.arange num !! k = Some (inject_Z (Z.of_nat k)).
Proof.
  intros Hk. unfold np.arange.
  rewrite list_lookup_fmap, lookup_seq_lt by exact Hk. reflexivity.
Qed.

Lemma linspace_length start stop num :
  length (np.linspace start stop num) = num.
Proof.
  unfold np.linspace.
  repeat match goal with
         | |- context [if ?b then _ else _] => destruct b
         end;
    rewrite ?length_insert, !length_map; apply arange_length.
Qed.

Lemma inject_nat_nonzero n : (0 < n)%nat -> ~ inject_Z (Z.of_nat n) == 0.
Proof.
  intros Hn H. unfold Qeq in H. simpl in H. lia.
Qed.

Lemma linspace_lookup start stop num k :
  (1 < num)%nat -> (k < num)%nat ->
  exists v, np.linspace start stop num !! k = Some v
            /\ v == sample start stop num k.
Proof.
  intros Hnum Hk. unfold np.linspace, sample.
  assert (Hdiv : ~ inject_Z (Z.of_nat (num - 1)) == 0)
    by (apply inject_nat_nonzero; lia).
  destruct (1 <? num)%nat eqn:E1; [|apply Nat.ltb_ge in E1; lia].
  destruct (0 <? num - 1)%nat eqn:E0; [|apply Nat.ltb_ge in E0; lia].
  destruct (decide (k = num - 1)%nat) as [->|Hne].
  - exists stop. split.
    + apply list_lookup_insert_eq.
      destruct (Qeq_bool _ _); rewrite !length_map, arange_length; lia.
    + field. exact Hdiv.
  - rewrite list_lookup_insert_ne by congruence.
    destruct (Qeq_bool _ _);
      rewrite !list_lookup_fmap, arange_lookup by exact Hk; simpl;
      eexists; (split; [reflexivity|]); field; exact Hdiv.
Qed.

Lemma linspace_last start stop num :
  (1 < num)%nat -> np.linspace start stop num !! (num - 1)%nat = Some stop.
Proof.
  intros Hnum. unfold np.linspace.
  destruct (1 <? num)%nat eqn:E1; [|apply Nat.ltb_ge in E1; lia].
  apply list_lookup_insert_eq.
  repeat match goal with
         | |- context [if ?b then _ else _] => destruct b
         end; rewrite !length_map, arange_length; lia.
Qed.

Lemma linspace_first start stop num :
  (1 < num)%nat ->
  exists v, np.linspace start stop num !! 0%nat = Some v /\ v == start.
Proof.
  intros Hnum.
  destruct (linspace_lookup start stop num 0 Hnum) as (v & Hv & Hs); [lia|].
  exists v. split; [exact Hv|]. rewrite Hs. unfold sample. simpl.
  assert (Hdiv : ~ inject_Z (Z.of_nat (num - 1)) == 0)
    by (apply inject_nat_nonzero; lia).
  field. exact Hdiv.
Qed.

End linspace_facts.

(** *** Running computations *)

Lemma run_bind {A B} (m : M A) (f : A -> M B) (w : World) :
  (m ≫= f) w = match m w with
               | (Ok a, w') => f a w'
               | (Raise e, w') => (Raise e, w')
               end.
Proof. reflexivity. Qed.

Lemma run_ret {A} (a : A) (w : World) : (mret a : M A) w = (Ok a, w).
Proof. reflexivity. Qed.

Ltac run := repeat (rewrite ?run_bind, ?run_ret; cbn beta iota).

Ltac wsimp :=
  unfold log, with_heap, with_axes, with_figs;
  cbn [axes figs heap trace view_x view_y autoscalex_on autoscaley_on
       artists].

(** *** The scoring loops *)

Section loops.
Context `{Libraries}.
Variables (clf : nat) (o : SVC) (m : Model).
Hypothesis Hfit : fitted o = Some m.

Lemma decision_function_run rows w :
  heap w !! clf = Some o ->
  sklearn.decision_function clf rows w
  = (Ok (map (score m) rows), log w (CallDecisionFunction clf rows)).
Proof.
  intros Hclf. unfold sklearn.decision_function, sklearn.get.
  run. rewrite Hclf. unfold sklearn.emit. run. now rewrite Hfit.
Qed.

(** The inner loop fills row [i] from column [k] on. *)
Lemma inner_loop i xi : forall (ys : list Q) (k : nat) P row w,
  heap w !! clf = Some o ->
  P !! i = Some row ->
  length row = (k + length ys)%nat ->
  for_each (combine (seq k (length ys)) ys)
    (fun P '(j, yj) =>
       v ← sklearn.decision_function clf [(xi, yj)];
       lift (np.setitem P i j v)) P w
  = (Ok (<[i := take k row ++ map (fun yj => score m (xi, yj)) ys]> P),
     mkWorld (axes w) (figs w) (heap w)
       (trace w ++ map (fun yj => CallDecisionFunction clf [(xi, yj)]) ys)).
Proof.
  induction ys as [|yj ys IH]; intros k P row w Hclf Hrow Hlen; simpl.
  - rewrite !app_nil_r, take_ge by (simpl in Hlen; lia).
    rewrite list_insert_id by exact Hrow. now destruct w.
  - simpl in Hlen. run. rewrite decision_function_run by exact Hclf.
    unfold lift, np.setitem. simpl map. rewrite Hrow.
    destruct (k <? length row)%nat eqn:Ek; [|apply Nat.ltb_ge in Ek; lia].
    apply Nat.ltb_lt in Ek.
    rewrite (IH (S k) _ (<[k := score m (xi, yj)]> row)).
    + rewrite list_insert_insert_eq.
      rewrite (take_S_r _ k (score m (xi, yj)))
        by (now apply list_lookup_insert_eq).
      rewrite take_insert_ge by lia. simpl.
      now rewrite <- !app_assoc.
    + exact Hclf.
    + apply list_lookup_insert_eq. now apply lookup_lt_Some in Hrow.
    + rewrite length_insert. lia.
Qed.

(** The outer loop fills the rows from row [k] on. *)
Lemma outer_loop ys : forall (xs : list Q) (k : nat) P w,
  heap w !! clf = Some o ->
  length P = (k + length xs)%nat ->
  (forall i row, P !! i = Some row -> length row = length ys) ->
  for_each (combine (seq k (length xs)) xs)
    (fun P '(i, xi) =>
       for_each (np.enumerate ys)
         (fun P '(j, yj) =>
            v ← sklearn.decision_function clf [(xi, yj)];
            lift (np.setitem P i j v)) P) P w
  = (Ok (take k P ++ score_grid m xs ys),
     mkWorld (axes w) (figs w) (heap w)
       (trace w ++ score_calls clf xs ys)).
Proof.
  induction xs as [|xi xs IH]; intros k P w Hclf Hlen Hrows; simpl.
  - rewrite !app_nil_r, take_ge by (simpl in Hlen; lia). now destruct w.
  - simpl in Hlen. run.
    destruct (lookup_lt_is_Some_2 P k) as [row Hrow]; [lia|].
    unfold np.enumerate.
    rewrite (inner_loop k xi ys 0 P row w Hclf Hrow)
      by (rewrite (Hrows _ _ Hrow); lia).
    rewrite take_0. simpl app at 1.
    set (r := map (fun yj => score m (xi, yj)) ys).
    rewrite (IH (S k)); simpl.
    + rewrite (take_S_r _ k r)
        by (apply list_lookup_insert_eq; now apply lookup_lt_Some in Hrow).
      rewrite take_insert_ge by lia.
      now rewrite <- !app_assoc.
    + exact Hclf.
    + rewrite length_insert. lia.
    + intros i row' Hi.
      destruct (decide (i = k)) as [->|Hne].
      * rewrite list_lookup_insert_eq in Hi
          by (now apply lookup_lt_Some in Hrow).
        injection Hi as <-. unfold r. now rewrite length_map.
      * rewrite list_lookup_insert_ne in Hi by congruence.
        now apply (Hrows i).
Qed.

Lemma fill_scores_run xs ys w :
  heap w !! clf = Some o ->
  fill_scores clf xs ys (np.zeros_like (snd (np.meshgrid ys xs))) w
  = (Ok (score_grid m xs ys),
     mkWorld (axes w) (figs w) (heap w)
       (trace w ++ score_calls clf xs ys)).
Proof.
  intros Hclf. unfold fill_scores, np.enumerate.
  rewrite (outer_loop ys xs 0 _ w Hclf).
  - now rewrite take_0.
  - unfold np.zeros_like, np.meshgrid. simpl. now rewrite !length_map.
  - intros i row. unfold np.zeros_like, np.meshgrid. simpl.
    rewrite !list_lookup_fmap.
    destruct (xs !! i); simpl; [|discriminate].
    intros [= <-]. now rewrite !length_map.
Qed.
End loops.

(** *** The current axes *)

(** Name the two outputs of a [meshgrid] call by their projections. *)
Ltac split_mesh :=
  match goal with
  | |- context [np.meshgrid ?a ?b] =>
      let Y := fresh "Y" in
      let X := fresh "X" in
      let E := fresh "Emesh" in
      destruct (np.meshgrid a b) as [Y X] eqn:E;
      assert (fst (np.meshgrid a b) = Y) by (now rewrite E);
      assert (snd (np.meshgrid a b) = X) by (now rewrite E);
      clear E; subst Y X
  end.

Section current_axes.
Context `{Libraries}.

Lemma gca_total w : exists h w1, plt.gca w = (Ok h, w1).
Proof.
  unfold plt.gca. destruct (figs w) as [|[|a s] fs]; eauto.
Qed.

Lemma gca_idem w h w1 : plt.gca w = (Ok h, w1) -> plt.gca w1 = (Ok h, w1).
Proof.
  unfold plt.gca. destruct (figs w) as [|[|a s] fs] eqn:E;
    intros [= <- <-]; simpl; rewrite ?E; reflexivity.
Qed.

Lemma gca_frame w h w1 :
  plt.gca w = (Ok h, w1) ->
  heap w1 = heap w /\ trace w1 = trace w
  /\ exists new, axes w1 = axes w ++ new.
Proof.
  unfold plt.gca. destruct (figs w) as [|[|a s] fs] eqn:E;
    intros [= <- <-]; simpl; repeat split; eauto.
  exists []. now rewrite app_nil_r.
Qed.

Lemma xlim_get_run w h cur :
  plt.gca w = (Ok h, w) -> axes w !! h = Some cur ->
  plt.xlim None w = (Ok (view_x cur), w).
Proof.
  intros Hg Hc. unfold plt.xlim, Ax.get_xlim, Ax.get. run.
  rewrite Hg. run. rewrite Hc. reflexivity.
Qed.

Lemma ylim_get_run w h cur :
  plt.gca w = (Ok h, w) -> axes w !! h = Some cur ->
  plt.ylim None w = (Ok (view_y cur), w).
Proof.
  intros Hg Hc. unfold plt.ylim, Ax.get_ylim, Ax.get. run.
  rewrite Hg. run. rewrite Hc. reflexivity.
Qed.

Lemma add_artist_run w h a art :
  axes w !! h = Some a ->
  Ax.add_artist h art w
  = (Ok tt, with_axes w (<[h := Ax.draw a art]> (axes w))).
Proof.
  intros Ha. unfold Ax.add_artist, Ax.get, Ax.put. run. now rewrite Ha.
Qed.

(** A complete description of a run of the renderer: [h] is the current
    axes, created on demand, and the drawing goes to [ax] when it is
    given. *)
Lemma renderer_run clf ax w h w1 o m cur tgt :
  plt.gca w = (Ok h, w1) ->
  heap w !! clf = Some o -> fitted o = Some m ->
  axes w1 !! h = Some cur ->
  axes w1 !! default h ax = Some tgt ->
  plot_svc_decision_function clf ax w
  = (Ok tt,
     mkWorld
       (<[default h ax :=
            Ax.draw tgt (decision_contour m (view_x cur) (view_y cur))]>
          (axes w1))
       (figs w1) (heap w)
       (trace w ++ score_calls clf
                     (np.linspace (fst (view_x cur)) (snd (view_x cur)) 30)
                     (np.linspace (fst (view_y cur)) (snd (view_y cur)) 30))).
Proof.
  intros Hg Hclf Hfit Hcur Htgt.
  pose proof (gca_idem _ _ _ Hg) as Hg1.
  destruct (gca_frame _ _ _ Hg) as (Hheap & Htrace & _).
  unfold plot_svc_decision_function.
  destruct ax as [a|]; simpl default in *; run.
  - unfold plt.xlim at 1. run. rewrite Hg. run.
    unfold Ax.get_xlim at 1, Ax.get at 1. run. rewrite Hcur. run.
    rewrite (xlim_get_run w1 h cur Hg1 Hcur). run.
    repeat (rewrite (ylim_get_run w1 h cur Hg1 Hcur); run).
    split_mesh.
    run. rewrite (fill_scores_run clf o m Hfit) by now rewrite Hheap.
    unfold Ax.contour. rewrite (add_artist_run _ a tgt) by exact Htgt.
    unfold decision_contour, with_axes. cbn [axes figs heap trace].
    rewrite Hheap, Htrace. reflexivity.
  - rewrite Hg. run.
    repeat (rewrite (xlim_get_run w1 h cur Hg1 Hcur); run).
    repeat (rewrite (ylim_get_run w1 h cur Hg1 Hcur); run).
    split_mesh.
    run. rewrite (fill_scores_run clf o m Hfit) by now rewrite Hheap.
    unfold Ax.contour. rewrite (add_artist_run _ h tgt) by exact Htgt.
    unfold decision_contour, with_axes. cbn [axes figs heap trace].
    rewrite Hheap, Htrace. reflexivity.
Qed.
End current_axes.

(** *** A complete description of a run of the driver *)

(** Overwrite the object allocated last. *)
Ltac insert_last :=
  rewrite insert_app_r_alt, Nat.sub_diag by reflexivity; simpl insert.

Section driver.
Context `{Libraries}.

Lemma plot_svm_run N w :
  let n := default 10%Z N in
  let X := np.slice_to (fst dataset) n in
  let y := np.slice_to (snd dataset) n in
  let clf := length (heap w) in
  plot_svm N w
  = match libsvm_train Linear X y with
    | Ok m =>
        (Ok tt,
         mkWorld (axes w ++ [svm_axes X y m])
           ([length (axes w)] :: figs w)
           (heap w ++ [mkSVC Linear (Some m)])
           (trace w
            ++ [CallMakeBlobs 200 2 0 0.60%Q; CallFit clf X y]
            ++ score_calls clf (np.linspace (-1) 4 30)
                 (np.linspace (-1) 6 30)))
    | Raise e =>
        (Raise e,
         mkWorld (axes w) (figs w) (heap w ++ [mkSVC Linear None])
           (trace w ++ [CallMakeBlobs 200 2 0 0.60%Q; CallFit clf X y]))
    end.
Proof.
  intros n X y clf. unfold plot_svm. fold n.
  unfold sklearn.make_blobs, sklearn.emit. run.
  fold dataset. destruct dataset as [X0 y0] eqn:Edata.
  simpl fst in X. simpl snd in y. fold X y.
  unfold sklearn.SVC_. run.
  unfold sklearn.fit, sklearn.get, sklearn.emit. run.
  cbn [heap log with_heap]. fold clf.
  rewrite list_lookup_middle by reflexivity. run.
  unfold lift. cbn [kernel].
  destruct (libsvm_train Linear X y) as [m|e].
  2: { wsimp. now rewrite <- app_assoc. }
  unfold sklearn.put. wsimp.
  insert_last.
  unfold plt.figure. run. wsimp.
  unfold plt.scatter at 1. run. unfold plt.gca at 1. wsimp.
  unfold Ax.scatter. rewrite (add_artist_run _ _ default_axes)
    by (wsimp; now apply list_lookup_middle).
  wsimp. insert_last.
  unfold Ax.draw, default_axes. wsimp.
  unfold plt.xlim, plt.ylim. run. unfold plt.gca at 1. wsimp. run.
  unfold Ax.set_xlim, Ax.get, Ax.put. run. wsimp.
  rewrite list_lookup_middle by reflexivity. run. wsimp. insert_last.
  unfold plt.gca at 1. wsimp. run.
  unfold Ax.set_ylim, Ax.get, Ax.put. run. wsimp.
  rewrite list_lookup_middle by reflexivity. run. wsimp. insert_last.
  unfold plt.gca at 1. wsimp. run.
  erewrite (renderer_run clf (Some (length (axes w))) _ (length (axes w)) _
              (mkSVC Linear (Some m)) m);
    [ | reflexivity | wsimp; now apply list_lookup_middle | reflexivity
      | wsimp; now apply list_lookup_middle
      | wsimp; now apply list_lookup_middle ].
  wsimp. simpl default. insert_last.
  unfold Ax.draw. wsimp.
  unfold sklearn.support_vectors_, sklearn.get. run. wsimp.
  rewrite list_lookup_middle by reflexivity. run. cbn [fitted]. run.
  unfold plt.scatter. run. unfold plt.gca at 1. wsimp. run.
  unfold Ax.scatter. erewrite add_artist_run
    by (wsimp; now apply list_lookup_middle).
  wsimp. insert_last. unfold Ax.draw. wsimp.
  unfold svm_axes. simpl app. now rewrite <- !app_assoc.
Qed.
End driver.

(** *** The arrays handed to [contour] *)

Section grids.
Variables (x y : list Q).

Lemma entry_meshgrid i j xi yj :
  x !! i = Some xi -> y !! j = Some yj ->
  entry (snd (np.meshgrid y x)) i j = Some xi
  /\ entry (fst (np.meshgrid y x)) i j = Some yj.
Proof.
  intros Hx Hy. unfold entry, np.meshgrid. simpl.
  rewrite !list_lookup_fmap, Hx. simpl.
  now rewrite list_lookup_fmap, Hy.
Qed.

Lemma entry_score_grid m i j xi yj :
  x !! i = Some xi -> y !! j = Some yj ->
  entry (score_grid m x y) i j = Some (score m (xi, yj)).
Proof.
  intros Hx Hy. unfold entry, score_grid.
  rewrite list_lookup_fmap, Hx. simpl.
  now rewrite list_lookup_fmap, Hy.
Qed.

Lemma score_grid_shape m :
  length (score_grid m x y) = length x
  /\ Forall (fun row => length row = length y) (score_grid m x y).
Proof.
  unfold score_grid. split; [apply length_map|].
  apply List.Forall_forall. intros row Hin.
  apply in_map_iff in Hin as (xi & <- & _). apply length_map.
Qed.
End grids.

Lemma score_calls_length clf x y :
  length (score_calls clf x y) = (length x * length y)%nat.
Proof.
  unfold score_calls. induction x as [|xi x IH]; simpl; [reflexivity|].
  now rewrite length_app, length_map, IH.
Qed.

Lemma score_calls_lookup clf y : forall x i j xi yj,
  x !! i = Some xi -> y !! j = Some yj ->
  score_calls clf x y !! (i * length y + j)%nat
  = Some (CallDecisionFunction clf [(xi, yj)]).
Proof.
  unfold score_calls.
  induction x as [|x0 x IH]; intros i j xi yj Hx Hy; [discriminate|].
  simpl flat_map. destruct i as [|i]; simpl in Hx.
  - injection Hx as ->. simpl.
    rewrite lookup_app_l
      by (rewrite length_map; now apply lookup_lt_Some in Hy).
    now rewrite list_lookup_fmap, Hy.
  - rewrite lookup_app_r by (rewrite length_map; simpl; lia).
    rewrite length_map.
    replace (S i * length y + j - length y)%nat
      with (i * length y + j)%nat by (simpl; lia).
    now apply IH.
Qed.

Lemma score_calls_single clf x y :
  Forall (fun e => exists p, e = CallDecisionFunction clf [p])
         (score_calls clf x y).
Proof.
  unfold score_calls. apply List.Forall_forall. intros e Hin.
  apply in_flat_map in Hin as (xi & _ & Hin).
  apply in_map_iff in Hin as (yj & <- & _). eauto.
Qed.

(** *** The renderer on a call it accepts *)

Section renderer.
Context `{Libraries}.

Lemma renderer_total clf ax w k m xl yl :
  heap w !! clf = Some (mkSVC k (Some m)) ->
  current_extents w = Some (xl, yl) ->
  valid_ax ax w = true ->
  exists h w1 tgt,
    plt.gca w = (Ok h, w1)
    /\ axes w1 !! default h ax = Some tgt
    /\ (forall i, i <> default h ax -> (i < length (axes w))%nat ->
        axes w1 !! i = axes w !! i)
    /\ plot_svc_decision_function clf ax w
       = (Ok tt,
          mkWorld
            (<[default h ax := Ax.draw tgt (decision_contour m xl yl)]>
               (axes w1))
            (figs w1) (heap w)
            (trace w ++ score_calls clf
                          (np.linspace (fst xl) (snd xl) 30)
                          (np.linspace (fst yl) (snd yl) 30))).
Proof.
  intros Hclf Hext Hax. unfold current_extents in Hext.
  destruct (gca_total w) as (h & w1 & Hg). rewrite Hg in Hext.
  destruct (axes w1 !! h) as [cur|] eqn:Hcur; [|discriminate].
  simpl in Hext. injection Hext as <- <-.
  destruct (gca_frame _ _ _ Hg) as (_ & _ & new & Hnew).
  assert (Htgt : is_Some (axes w1 !! default h ax)).
  { destruct ax as [a|]; simpl in *; [|eauto].
    apply Nat.ltb_lt in Hax. apply lookup_lt_is_Some_2.
    rewrite Hnew, length_app. lia. }
  destruct Htgt as [tgt Htgt].
  exists h, w1, tgt. repeat split; try assumption.
  - intros i _ Hi. rewrite Hnew. now apply lookup_app_l.
  - now apply (renderer_run clf ax w h w1 (mkSVC k (Some m)) m cur tgt).
Qed.
End renderer.

Lemma sample_first start stop num :
  (1 < num)%nat -> (sample start stop num 0 == start)%Q.
Proof.
  intros Hnum. unfold sample. simpl.
  assert (Hdiv : ~ (inject_Z (Z.of_nat (num - 1)) == 0)%Q)
    by (apply inject_nat_nonzero; lia).
  field. exact Hdiv.
Qed.

Lemma sample_last start stop num :
  (1 < num)%nat -> (sample start stop num (num - 1) == stop)%Q.
Proof.
  intros Hnum. unfold sample.
  assert (Hdiv : ~ (inject_Z (Z.of_nat (num - 1)) == 0)%Q)
    by (apply inject_nat_nonzero; lia).
  field. exact Hdiv.
Qed.

(** The lattice of a contour set spans the limits it was computed from:
    30 evenly spaced samples per axis. *)
Lemma grid_spans (x0 x1 y0 y1 : Q) (i j : nat) :
  (i < 30)%nat -> (j < 30)%nat ->
  exists xi yj,
    np.linspace x0 x1 30 !! i = Some xi
    /\ np.linspace y0 y1 30 !! j = Some yj
    /\ (xi == sample x0 x1 30 i)%Q /\ (yj == sample y0 y1 30 j)%Q.
Proof.
  intros Hi Hj.
  destruct (linspace_lookup x0 x1 30 i) as (xi & Hxi & Hsx); [lia|lia|].
  destruct (linspace_lookup y0 y1 30 j) as (yj & Hyj & Hsy); [lia|lia|].
  exists xi, yj. auto.
Qed.

(** *** What the renderer leaves alone *)

Create HintDb frame.

Section frame.
Context `{Libraries}.
Variable clf : nat.

Lemma rso_here {A} (c : M A) :
  (forall w, exists r, c w = (r, w)) -> reads_scores_only clf c.
Proof.
  intros Hc w. destruct (Hc w) as [r ->]. simpl. split; [reflexivity|].
  exists []. now rewrite app_nil_r.
Qed.

Lemma rso_ret {A} (a : A) : reads_scores_only clf (mret a).
Proof. apply rso_here. intros w. now exists (Ok a). Qed.

Lemma rso_raise {A} e : reads_scores_only clf (raise e : M A).
Proof. apply rso_here. intros w. now exists (Raise e). Qed.

Lemma rso_lift {A} (r : Result A) : reads_scores_only clf (lift r).
Proof. apply rso_here. intros w. now exists r. Qed.

Lemma rso_bind {A B} (c : M A) (f : A -> M B) :
  reads_scores_only clf c -> (forall a, reads_scores_only clf (f a)) ->
  reads_scores_only clf (c ≫= f).
Proof.
  intros Hc Hf w. rewrite run_bind.
  destruct (Hc w) as (Hh & evs & Ht & Hevs).
  destruct (c w) as [[a|e] w1]; simpl in *.
  - destruct (Hf a w1) as (Hh' & evs' & Ht' & Hevs'). split.
    + now rewrite Hh'.
    + exists (evs ++ evs'). rewrite Ht', Ht, <- app_assoc.
      split; [reflexivity|]. now apply Forall_app.
  - split; [assumption|]. now exists evs.
Qed.

Lemma rso_for_each {A S} (body : S -> A -> M S) (l : list A) :
  (forall s a, reads_scores_only clf (body s a)) ->
  forall s, reads_scores_only clf (for_each l body s).
Proof.
  intros Hbody. induction l as [|a l IH]; intros s; simpl.
  - apply rso_ret.
  - apply rso_bind; [apply Hbody|exact IH].
Qed.

(** Operations on the axes store do not touch classifiers or the trace. *)
Lemma rso_plot {A} (c : M A) :
  (forall w, heap (snd (c w)) = heap w /\ trace (snd (c w)) = trace w) ->
  reads_scores_only clf c.
Proof.
  intros Hc w. destruct (Hc w) as [Hh Ht]. split; [assumption|].
  exists []. now rewrite app_nil_r.
Qed.

Lemma rso_gca : reads_scores_only clf plt.gca.
Proof.
  apply rso_plot. intros w. unfold plt.gca.
  now destruct (figs w) as [|[|a s] fs].
Qed.

Lemma rso_ax_get h : reads_scores_only clf (Ax.get h).
Proof.
  apply rso_here. intros w. unfold Ax.get. destruct (axes w !! h); eauto.
Qed.

Lemma rso_ax_put h a : reads_scores_only clf (Ax.put h a).
Proof. apply rso_plot. intros w. now split. Qed.

Lemma rso_decision_function rows :
  reads_scores_only clf (sklearn.decision_function clf rows).
Proof.
  intros w. unfold sklearn.decision_function, sklearn.get, sklearn.emit.
  rewrite run_bind. destruct (heap w !! clf) as [o|]; simpl.
  - destruct (fitted o); simpl; (split; [reflexivity|]);
      exists [CallDecisionFunction clf rows];
      (split; [reflexivity|]); repeat constructor; now exists rows.
  - split; [reflexivity|]. exists []. now rewrite app_nil_r.
Qed.

Hint Resolve rso_ret rso_raise rso_lift rso_gca rso_ax_get rso_ax_put
  rso_decision_function : frame.

Lemma rso_xlim_get : reads_scores_only clf (plt.xlim None).
Proof.
  unfold plt.xlim, Ax.get_xlim.
  repeat (apply rso_bind; [auto with frame|intros]). auto with frame.
Qed.

Lemma rso_ylim_get : reads_scores_only clf (plt.ylim None).
Proof.
  unfold plt.ylim, Ax.get_ylim.
  repeat (apply rso_bind; [auto with frame|intros]). auto with frame.
Qed.

Lemma rso_add_artist h art : reads_scores_only clf (Ax.add_artist h art).
Proof.
  unfold Ax.add_artist. apply rso_bind; auto with frame.
Qed.

Lemma rso_fill_scores x y P : reads_scores_only clf (fill_scores clf x y P).
Proof.
  unfold fill_scores.
  apply rso_for_each. intros P1 [i xi].
  apply rso_for_each. intros P2 [j yj].
  apply rso_bind; auto with frame.
Qed.

Lemma rso_renderer ax :
  reads_scores_only clf (plot_svc_decision_function clf ax).
Proof.
  unfold plot_svc_decision_function.
  apply rso_bind; [destruct ax; auto with frame|intros a].
  do 2 (apply rso_bind; [apply rso_xlim_get|intros ?]).
  do 2 (apply rso_bind; [apply rso_ylim_get|intros ?]).
  destruct (np.meshgrid _ _) as [Y X].
  apply rso_bind; [apply rso_fill_scores|intros P].
  apply rso_add_artist.
Qed.
End frame.

(** X2.  The lattice the renderer evaluates: 30 evenly spaced samples per
    axis over the limits of the current axes, both ends included, whichever
    axes the contour set is drawn on. *)
Lemma renderer_grid_over_current_axes `{Libraries}
    (clf : nat) (ax : option nat) (w : World) (k : Kernel) (m : Model)
    (xl yl : Q * Q) :
  heap w !! clf = Some (mkSVC k (Some m)) ->
  current_extents w = Some (xl, yl) ->
  valid_ax ax w = true ->
  exists w' t tgt' X Y P,
    plot_svc_decision_function clf ax w = (Ok tt, w')
    /\ (forall a, ax = Some a -> t = a)
    /\ axes w' !! t = Some tgt'
    /\ last (artists tgt')
       = Some (ContourSet X Y P "k" [-1; 0; 1]%Q 0.5%Q
                 ["--"; "-"; "--"]%string)
    /\ length X = 30%nat /\ length Y = 30%nat
    /\ (forall i j, (i < 30)%nat -> (j < 30)%nat ->
        exists xi yj,
          entry X i j = Some xi /\ entry Y i j = Some yj
          /\ (xi == sample (fst xl) (snd xl) 30 i)%Q
          /\ (yj == sample (fst yl) (snd yl) 30 j)%Q)
    /\ (forall j, (j < 30)%nat -> entry X 29 j = Some (snd xl))
    /\ (forall i, (i < 30)%nat -> entry Y i 29 = Some (snd yl))
    /\ (sample (fst xl) (snd xl) 30 0 == fst xl)%Q
    /\ (sample (fst yl) (snd yl) 30 0 == fst yl)%Q.
Proof.
  intros Hclf Hext Hax.
  destruct (renderer_total clf ax w k m xl yl Hclf Hext Hax)
    as (h & w1 & tgt & _ & Htgt & _ & Hrun).
  eexists _, (default h ax), _, _, _, _.
  split; [exact Hrun|]. cbn [axes].
  split; [now intros a ->|].
  split; [apply list_lookup_insert_eq; now apply lookup_lt_Some in Htgt|].
  unfold Ax.draw, decision_contour. cbn [artists].
  split; [apply last_snoc|].
  unfold np.meshgrid at 1 2. cbn [fst snd].
  split; [now rewrite length_map, linspace_length|].
  split; [now rewrite length_map, linspace_length|].
  split; [|split; [|split; [|split]]].
  - intros i j Hi Hj.
    destruct (grid_spans (fst xl) (snd xl) (fst yl) (snd yl) i j Hi Hj)
      as (xi & yj & Hx & Hy & Hs).
    exists xi, yj.
    destruct (entry_meshgrid _ _ i j xi yj Hx Hy) as [HX HY]. auto.
  - intros j Hj.
    destruct (grid_spans (fst xl) (snd xl) (fst yl) (snd yl) 0 j)
      as (_ & yj & _ & Hy & _); [lia|exact Hj|].
    apply (entry_meshgrid _ _ 29 j (snd xl) yj); [|exact Hy].
    apply (linspace_last (fst xl) (snd xl) 30). lia.
  - intros i Hi.
    destruct (grid_spans (fst xl) (snd xl) (fst yl) (snd yl) i 0)
      as (xi & _ & Hx & _); [exact Hi|lia|].
    apply (entry_meshgrid _ _ i 29 xi (snd yl)); [exact Hx|].
    apply (linspace_last (fst yl) (snd yl) 30). lia.
  - apply sample_first. lia.
  - apply sample_first. lia.
Qed.

(** * The statements of the specification, C1 to C10 *)

(** C1 (a call whose target is not the current axes).  The renderer is
    asked to draw on
    axes 0 of [Toy.two_figures], whose extents are [-1,4] x [-1,6], while
    the current axes is axes 1 with extents [0,1] x [0,1].  It returns
    normally and the contour set it adds to axes 0 is laid out on the
    lattice of 30 samples over [0,1] x [0,1], the extents of the current
    axes: the first horizontal sample is 0 (not -1) and the last is 1 (not
    4), and likewise vertically 0 and 1 (not -1 and 6). *)
Theorem C1_grid_spans_current_axes_not_target :
  exists w' X Y P x_first y_first,
    @plot_svc_decision_function Toy.lib 0%nat (Some 0%nat) Toy.two_figures
    = (Ok tt, w')
    /\ axes Toy.two_figures !! 0%nat
       = Some (mkAxes (-1, 4)%Q (-1, 6)%Q false false [])
    /\ @current_extents Toy.lib Toy.two_figures = Some ((0, 1)%Q, (0, 1)%Q)
    /\ axes w' !! 0%nat
       = Some (mkAxes (-1, 4)%Q (-1, 6)%Q false false
                 [ContourSet X Y P "k" [-1; 0; 1]%Q 0.5%Q
                    ["--"; "-"; "--"]%string])
    /\ X = snd (np.meshgrid (np.linspace 0 1 30) (np.linspace 0 1 30))
    /\ Y = fst (np.meshgrid (np.linspace 0 1 30) (np.linspace 0 1 30))
    /\ entry X 0 0 = Some x_first /\ (x_first == 0)%Q
    /\ ~ (x_first == -1)%Q
    /\ entry X 29 0 = Some 1%Q /\ ~ (1 == 4)%Q
    /\ entry Y 0 0 = Some y_first /\ (y_first == 0)%Q
    /\ ~ (y_first == -1)%Q
    /\ entry Y 0 29 = Some 1%Q /\ ~ (1 == 6)%Q.
Proof.
  eexists _, _, _, _, (0 # 29)%Q, (0 # 29)%Q.
  split; [vm_compute; reflexivity|].
  repeat split; try (vm_compute; reflexivity); vm_compute; discriminate.
Qed.

(** C2.  On a fitted classifier, the renderer calls [decision_function]
    900 times, each time on one point alone: call number [30 i + j] is on
    the point made of the i-th horizontal and the j-th vertical sample.  The
    scores end up in a 30 x 30 array [P] with [P[i][j]] the score at
    [(X[i][j], Y[i][j]) = (x_i, y_j)], which is the array handed to
    [contour] together with [X] and [Y]. *)
Theorem C2_one_call_per_grid_point `{Libraries}
    (clf : nat) (ax : option nat) (w : World) (k : Kernel) (m : Model)
    (xl yl : Q * Q) :
  heap w !! clf = Some (mkSVC k (Some m)) ->
  current_extents w = Some (xl, yl) ->
  valid_ax ax w = true ->
  let x := np.linspace (fst xl) (snd xl) 30 in
  let y := np.linspace (fst yl) (snd yl) 30 in
  exists w' calls t tgt' X Y P,
    plot_svc_decision_function clf ax w = (Ok tt, w')
    /\ length x = 30%nat /\ length y = 30%nat
    /\ trace w' = trace w ++ calls
    /\ length calls = 900%nat
    /\ (forall i j xi yj, x !! i = Some xi -> y !! j = Some yj ->
        calls !! (i * 30 + j)%nat = Some (CallDecisionFunction clf [(xi, yj)]))
    /\ (forall a, ax = Some a -> t = a)
    /\ axes w' !! t = Some tgt'
    /\ last (artists tgt')
       = Some (ContourSet X Y P "k" [-1; 0; 1]%Q 0.5%Q
                 ["--"; "-"; "--"]%string)
    /\ length P = 30%nat
    /\ Forall (fun row => length row = 30%nat) P
    /\ (forall i j xi yj, x !! i = Some xi -> y !! j = Some yj ->
        entry X i j = Some xi /\ entry Y i j = Some yj
        /\ entry P i j = Some (score m (xi, yj))).
Proof.
  intros Hclf Hext Hax x y.
  destruct (renderer_total clf ax w k m xl yl Hclf Hext Hax)
    as (h & w1 & tgt & Hg & Htgt & _ & Hrun).
  fold x y in Hrun. unfold decision_contour in Hrun. fold x y in Hrun.
  assert (Hx : length x = 30%nat) by apply linspace_length.
  assert (Hy : length y = 30%nat) by apply linspace_length.
  clearbody x y.
  eexists _, (score_calls clf x y), (default h ax), _, _, _, _.
  split; [exact Hrun|]. cbn [axes trace].
  split; [exact Hx|]. split; [exact Hy|]. split; [reflexivity|].
  split; [now rewrite score_calls_length, Hx, Hy|].
  split; [intros i j xi yj Hi Hj; rewrite <- Hy at 1;
          now apply score_calls_lookup|].
  split; [now intros a ->|].
  split; [apply list_lookup_insert_eq; now apply lookup_lt_Some in Htgt|].
  unfold Ax.draw. cbn [artists].
  split; [apply last_snoc|].
  destruct (score_grid_shape x y m) as [Hlen Hrows].
  split; [now rewrite Hlen|].
  split; [now rewrite Hy in Hrows|].
  intros i j xi yj Hi Hj.
  destruct (entry_meshgrid x y i j xi yj Hi Hj) as [HX HY].
  repeat split; try assumption. now apply entry_score_grid.
Qed.

Lemma C2_one_call_per_grid_point_witness :
  exists w' calls,
    @plot_svc_decision_function Toy.lib 0%nat None Toy.two_figures
    = (Ok tt, w')
    /\ trace w' = calls /\ length calls = 900%nat
    /\ calls !! (29 * 30 + 29)%nat
       = Some (CallDecisionFunction 0 [(1, 1)%Q]).
Proof.
  destruct (@C2_one_call_per_grid_point Toy.lib 0%nat None Toy.two_figures
              Linear Toy.line (0, 1)%Q (0, 1)%Q)
    as (w' & calls & t & tgt' & X & Y & P & Hrun & _ & _ & Ht & Hlen & Hcall
        & _); [reflexivity|reflexivity|reflexivity|].
  exists w', calls. split; [exact Hrun|]. split; [exact Ht|].
  split; [exact Hlen|]. apply Hcall; reflexivity.
Defined.

(** [l[:N]] is the list of the first [N] elements when [N] is a count. *)
Lemma slice_to_take {A} (l : list A) (N : Z) :
  (0 <= N)%Z -> np.slice_to l N = take (Z.to_nat N) l.
Proof.
  intros HN. unfold np.slice_to.
  destruct (N <? 0)%Z eqn:E; [apply Z.ltb_lt in E; lia|reflexivity].
Qed.

(** C3.  For a sample count [N], the driver calls [fit] on the first [N]
    rows and the first [N] labels of the fixed data set, in their order and
    with row [i] still next to label [i]; the solver's answer decides the
    rest: on success the classifier holds the model trained on that prefix
    and the first thing drawn on the new axes is the scatter of the same
    prefix, colored by the same labels; on failure the exception is the
    driver's result. *)
Theorem C3_first_N_rows_and_labels `{Libraries} (N : Z) (w : World) :
  (0 <= N)%Z ->
  let X := take (Z.to_nat N) (fst dataset) in
  let y := take (Z.to_nat N) (snd dataset) in
  (forall i, (i < Z.to_nat N)%nat ->
     X !! i = fst dataset !! i /\ y !! i = snd dataset !! i)
  /\ trace (snd (plot_svm (Some N) w)) !! S (length (trace w))
     = Some (CallFit (length (heap w)) X y)
  /\ match libsvm_train Linear X y with
     | Ok m =>
         exists w' a rest,
           plot_svm (Some N) w = (Ok tt, w')
           /\ heap w' !! length (heap w) = Some (mkSVC Linear (Some m))
           /\ axes w' !! length (axes w) = Some a
           /\ artists a
              = PathCollection (map fst X) (map snd X) (ByLabel y) 50%Q
                  (Some "spring"%string) None None :: rest
     | Raise e => fst (plot_svm (Some N) w) = Raise e
     end.
Proof.
  intros HN X y.
  split; [intros i Hi; subst X y; now rewrite !lookup_take_lt by exact Hi|].
  rewrite plot_svm_run. simpl default.
  rewrite !slice_to_take by exact HN. fold X y.
  destruct (libsvm_train Linear X y) as [m|e]; cbn [fst snd trace].
  - split.
    + rewrite lookup_app_r by lia.
      now replace (S (length (trace w)) - length (trace w))%nat with 1%nat
        by lia.
    + eexists _, _, _. split; [reflexivity|]. cbn [heap axes].
      split; [now apply list_lookup_middle|].
      split; [now apply list_lookup_middle|]. reflexivity.
  - split; [|reflexivity].
    rewrite lookup_app_r by lia.
    now replace (S (length (trace w)) - length (trace w))%nat with 1%nat
      by lia.
Qed.

Lemma C3_first_N_rows_and_labels_witness :
  trace (snd (@plot_svm Toy.lib (Some 4%Z) Toy.empty)) !! 1%nat
  = Some (CallFit 0 [(0, 0); (1, 4); (2, 2); (3, 6)]%Q [0; 1; 0; 1]%nat).
Proof.
  exact (proj1 (proj2 (@C3_first_N_rows_and_labels Toy.lib 4%Z Toy.empty
                         ltac:(lia)))).
Defined.

(** C4.  On a fitted classifier the renderer adds exactly one contour set
    to the target axes and nothing to any other axes.  It has the three
    levels -1, 0 and 1, drawn dashed, solid and dashed, with opacity 0.5,
    strictly between 0 and 1, in black. *)
Theorem C4_three_contour_levels `{Libraries}
    (clf : nat) (ax : option nat) (w : World) (k : Kernel) (m : Model)
    (xl yl : Q * Q) :
  heap w !! clf = Some (mkSVC k (Some m)) ->
  current_extents w = Some (xl, yl) ->
  valid_ax ax w = true ->
  exists w' t tgt tgt' X Y P colors levels alpha linestyles,
    plot_svc_decision_function clf ax w = (Ok tt, w')
    /\ (forall a, ax = Some a -> t = a)
    /\ axes (snd (plt.gca w)) !! t = Some tgt
    /\ axes w' = <[t := tgt']> (axes (snd (plt.gca w)))
    /\ artists tgt'
       = artists tgt ++ [ContourSet X Y P colors levels alpha linestyles]
    /\ levels = [-1; 0; 1]%Q
    /\ map linestyle_of linestyles = [Some Dashed; Some Solid; Some Dashed]
    /\ (0 < alpha)%Q /\ (alpha < 1)%Q
    /\ rgb_of colors = Some (0, 0, 0)%Q.
Proof.
  intros Hclf Hext Hax.
  destruct (renderer_total clf ax w k m xl yl Hclf Hext Hax)
    as (h & w1 & tgt & Hg & Htgt & _ & Hrun).
  eexists _, (default h ax), tgt, _, _, _, _, _, _, _, _.
  split; [exact Hrun|]. cbn [axes].
  split; [now intros a ->|].
  rewrite Hg. cbn [snd].
  split; [exact Htgt|]. split; [reflexivity|].
  unfold Ax.draw, decision_contour. cbn [artists].
  split; [reflexivity|].
  repeat split.
Qed.

Lemma C4_three_contour_levels_witness :
  exists w',
    @plot_svc_decision_function Toy.lib 0%nat (Some 1%nat) Toy.two_figures
    = (Ok tt, w').
Proof.
  destruct (@C4_three_contour_levels Toy.lib 0%nat (Some 1%nat)
              Toy.two_figures Linear Toy.line (0, 1)%Q (0, 1)%Q)
    as (w' & t & tgt & tgt' & X & Y & P & c & l & a & ls & Hrun & _);
    [reflexivity|reflexivity|reflexivity|].
  exists w'. exact Hrun.
Defined.

(** C5.  Whatever [N] and whatever was open before, when the solver
    accepts the prefix the driver leaves a new axes whose limits are the
    window [-1,4] x [-1,6], and the contour set the renderer drew on it is
    laid out on the lattice of that window: entry [(i, j)] of its [X] is the
    i-th of 30 evenly spaced samples of [-1,4], and of its [Y] the j-th of
    30 evenly spaced samples of [-1,6], both ends included. *)
Theorem C5_fixed_window `{Libraries} (N : option Z) (w : World) :
  let X0 := np.slice_to (fst dataset) (default 10%Z N) in
  let y0 := np.slice_to (snd dataset) (default 10%Z N) in
  match libsvm_train Linear X0 y0 with
  | Ok m =>
      exists w' a points X Y P marks,
        plot_svm N w = (Ok tt, w')
        /\ axes w' !! length (axes w) = Some a
        /\ view_x a = (-1, 4)%Q /\ view_y a = (-1, 6)%Q
        /\ artists a
           = [points;
              ContourSet X Y P "k" [-1; 0; 1]%Q 0.5%Q ["--"; "-"; "--"]%string;
              marks]
        /\ (forall i j, (i < 30)%nat -> (j < 30)%nat ->
            exists xi yj,
              entry X i j = Some xi /\ entry Y i j = Some yj
              /\ (xi == sample (-1) 4 30 i)%Q
              /\ (yj == sample (-1) 6 30 j)%Q)
        /\ (sample (-1) 4 30 0 == -1)%Q /\ (sample (-1) 4 30 29 == 4)%Q
        /\ (sample (-1) 6 30 0 == -1)%Q /\ (sample (-1) 6 30 29 == 6)%Q
  | Raise e => fst (plot_svm N w) = Raise e
  end.
Proof.
  intros X0 y0. rewrite plot_svm_run. fold X0 y0.
  destruct (libsvm_train Linear X0 y0) as [m|e]; [|reflexivity].
  eexists _, _, _, _, _, _, _. split; [reflexivity|]. cbn [axes].
  split; [now apply list_lookup_middle|].
  unfold svm_axes, decision_contour. cbn [view_x view_y artists fst snd].
  do 3 (split; [reflexivity|]).
  split; [|repeat split; reflexivity].
  intros i j Hi Hj.
  destruct (grid_spans (-1) 4 (-1) 6 i j Hi Hj) as (xi & yj & Hx & Hy & Hs).
  exists xi, yj.
  destruct (entry_meshgrid _ _ i j xi yj Hx Hy) as [HX HY]. auto.
Qed.

(** What the score array does depend on: two calls of the renderer, in any
    two states, with classifiers whose decision scores agree at every point
    and with the same limits of the current axes, both return normally and
    hand [contour] the same [X], [Y] and score array [P], whichever axes
    they draw on. *)
Theorem renderer_grid_determined_by_extents_read `{Libraries}
    (c1 c2 : nat) (ax1 ax2 : option nat) (w1 w2 : World)
    (k1 k2 : Kernel) (m1 m2 : Model) (xl yl : Q * Q) :
  heap w1 !! c1 = Some (mkSVC k1 (Some m1)) ->
  heap w2 !! c2 = Some (mkSVC k2 (Some m2)) ->
  (forall p, score m1 p = score m2 p) ->
  current_extents w1 = Some (xl, yl) ->
  current_extents w2 = Some (xl, yl) ->
  valid_ax ax1 w1 = true ->
  valid_ax ax2 w2 = true ->
  exists w1' w2' t1 t2 a1 a2 X Y P,
    plot_svc_decision_function c1 ax1 w1 = (Ok tt, w1')
    /\ plot_svc_decision_function c2 ax2 w2 = (Ok tt, w2')
    /\ axes w1' !! t1 = Some a1 /\ axes w2' !! t2 = Some a2
    /\ (forall a, ax1 = Some a -> t1 = a)
    /\ (forall a, ax2 = Some a -> t2 = a)
    /\ last (artists a1)
       = Some (ContourSet X Y P "k" [-1; 0; 1]%Q 0.5%Q
                 ["--"; "-"; "--"]%string)
    /\ last (artists a2)
       = Some (ContourSet X Y P "k" [-1; 0; 1]%Q 0.5%Q
                 ["--"; "-"; "--"]%string)
    /\ P = score_grid m1 (np.linspace (fst xl) (snd xl) 30)
             (np.linspace (fst yl) (snd yl) 30).
Proof.
  intros Hc1 Hc2 Hsame He1 He2 Ha1 Ha2.
  destruct (renderer_total c1 ax1 w1 k1 m1 xl yl Hc1 He1 Ha1)
    as (h1 & v1 & tgt1 & _ & Ht1 & _ & Hrun1).
  destruct (renderer_total c2 ax2 w2 k2 m2 xl yl Hc2 He2 Ha2)
    as (h2 & v2 & tgt2 & _ & Ht2 & _ & Hrun2).
  eexists _, _, (default h1 ax1), (default h2 ax2), _, _, _, _, _.
  split; [exact Hrun1|]. split; [exact Hrun2|]. cbn [axes].
  split; [apply list_lookup_insert_eq; now apply lookup_lt_Some in Ht1|].
  split; [apply list_lookup_insert_eq; now apply lookup_lt_Some in Ht2|].
  split; [now intros a ->|]. split; [now intros a ->|].
  unfold Ax.draw, decision_contour. cbn [artists].
  split; [apply last_snoc|].
  split; [|reflexivity].
  rewrite last_snoc. do 2 f_equal. unfold score_grid.
  apply map_ext. intros xi. apply map_ext. intros yj. symmetry. apply Hsame.
Qed.

Lemma renderer_grid_determined_by_extents_read_witness :
  exists w1' w2',
    @plot_svc_decision_function Toy.lib 0%nat None Toy.two_figures
    = (Ok tt, w1')
    /\ @plot_svc_decision_function Toy.lib 0%nat (Some 0%nat)
         Toy.two_figures = (Ok tt, w2').
Proof.
  destruct (@renderer_grid_determined_by_extents_read Toy.lib 0%nat 0%nat
              None (Some 0%nat) Toy.two_figures Toy.two_figures
              Linear Linear Toy.line Toy.line (0, 1)%Q (0, 1)%Q)
    as (w1' & w2' & t1 & t2 & a1 & a2 & X & Y & P & Hrun1 & Hrun2 & _);
    [reflexivity|reflexivity|reflexivity|reflexivity|reflexivity
    |reflexivity|reflexivity|].
  exists w1', w2'. split; [exact Hrun1|exact Hrun2].
Defined.

(** C6 (two calls on the same axes, the current axes changed in between).
    In [Toy.window] the renderer is called on axes 0, which is current and
    has the extents [-1,4] x [-1,6]; then [plt.figure(); plt.gca()] makes a
    new current axes, with the default limits; then the renderer is called
    again with the same classifier on the same axes 0.  Both calls return
    normally, the classifier and the extents of axes 0 are the same at both
    calls, and yet the two score arrays drawn on axes 0 differ: the first is
    evaluated over [-1,4] x [-1,6] and holds 1/2 in its last corner, the
    score at (4, 6); the second is evaluated over [0,1] x [0,1] and holds
    -3/2 there, the score at (1, 1). *)
Theorem C6_same_target_extents_different_grids :
  exists w1 w1' w2 X1 Y1 P1 X2 Y2 P2 v1 v2,
    @plot_svc_decision_function Toy.lib 0%nat (Some 0%nat) Toy.window
    = (Ok tt, w1)
    /\ (plt.figure;; plt.gca) w1 = (Ok 1%nat, w1')
    /\ @plot_svc_decision_function Toy.lib 0%nat (Some 0%nat) w1'
       = (Ok tt, w2)
    /\ heap Toy.window !! 0%nat = Some (mkSVC Linear (Some Toy.line))
    /\ heap w1' !! 0%nat = Some (mkSVC Linear (Some Toy.line))
    /\ axes Toy.window !! 0%nat
       = Some (mkAxes (-1, 4)%Q (-1, 6)%Q false false [])
    /\ axes w1' !! 0%nat
       = Some (mkAxes (-1, 4)%Q (-1, 6)%Q false false
                 [ContourSet X1 Y1 P1 "k" [-1; 0; 1]%Q 0.5%Q
                    ["--"; "-"; "--"]%string])
    /\ axes w2 !! 0%nat
       = Some (mkAxes (-1, 4)%Q (-1, 6)%Q false false
                 [ContourSet X1 Y1 P1 "k" [-1; 0; 1]%Q 0.5%Q
                    ["--"; "-"; "--"]%string;
                  ContourSet X2 Y2 P2 "k" [-1; 0; 1]%Q 0.5%Q
                    ["--"; "-"; "--"]%string])
    /\ P1 = score_grid Toy.line (np.linspace (-1) 4 30) (np.linspace (-1) 6 30)
    /\ P2 = score_grid Toy.line (np.linspace 0 1 30) (np.linspace 0 1 30)
    /\ entry P1 29 29 = Some v1 /\ (v1 == 1 # 2)%Q
    /\ entry P2 29 29 = Some v2 /\ (v2 == - (3 # 2))%Q
    /\ ~ (v1 == v2)%Q
    /\ P1 <> P2.
Proof.
  eexists _, _, _, _, _, _, _, _, _, _, _.
  split; [vm_compute; reflexivity|].
  split; [vm_compute; reflexivity|].
  split; [vm_compute; reflexivity|].
  do 7 (split; [vm_compute; reflexivity|]).
  split; [vm_compute; reflexivity|]. split; [vm_compute; reflexivity|].
  split; [vm_compute; reflexivity|]. split; [vm_compute; reflexivity|].
  split; [vm_compute; discriminate|].
  vm_compute. discriminate.
Qed.

(** C7.  For a classifier whose score is [a x + b y + c], the array [P]
    handed to [contour], with levels -1, 0 and 1, holds at every lattice
    point [(x_i, y_j)] the value [a x_i + b y_j + c]; so a lattice point is
    on the level [l] of [P] exactly when it is on the line
    [a x + b y + c = l]. *)
Theorem C7_linear_score_grid `{Libraries}
    (clf : nat) (ax : option nat) (w : World) (k : Kernel) (m : Model)
    (xl yl : Q * Q) (a b c : Q) :
  heap w !! clf = Some (mkSVC k (Some m)) ->
  current_extents w = Some (xl, yl) ->
  valid_ax ax w = true ->
  (forall px py, (score m (px, py) == a * px + b * py + c)%Q) ->
  exists w' t tgt' X Y P,
    plot_svc_decision_function clf ax w = (Ok tt, w')
    /\ (forall h, ax = Some h -> t = h)
    /\ axes w' !! t = Some tgt'
    /\ last (artists tgt')
       = Some (ContourSet X Y P "k" [-1; 0; 1]%Q 0.5%Q
                 ["--"; "-"; "--"]%string)
    /\ forall i j, (i < 30)%nat -> (j < 30)%nat ->
       exists xi yj pij,
         entry X i j = Some xi /\ entry Y i j = Some yj
         /\ entry P i j = Some pij
         /\ (xi == sample (fst xl) (snd xl) 30 i)%Q
         /\ (yj == sample (fst yl) (snd yl) 30 j)%Q
         /\ (pij == a * xi + b * yj + c)%Q
         /\ forall l, In l [-1; 0; 1]%Q ->
              (pij == l)%Q <-> (a * xi + b * yj + c == l)%Q.
Proof.
  intros Hclf Hext Hax Hlin.
  destruct (renderer_total clf ax w k m xl yl Hclf Hext Hax)
    as (h & w1 & tgt & _ & Htgt & _ & Hrun).
  eexists _, (default h ax), _, _, _, _.
  split; [exact Hrun|]. cbn [axes].
  split; [now intros a' ->|].
  split; [apply list_lookup_insert_eq; now apply lookup_lt_Some in Htgt|].
  unfold Ax.draw, decision_contour. cbn [artists].
  split; [apply last_snoc|].
  intros i j Hi Hj.
  destruct (grid_spans (fst xl) (snd xl) (fst yl) (snd yl) i j Hi Hj)
    as (xi & yj & Hx & Hy & Hsx & Hsy).
  destruct (entry_meshgrid _ _ i j xi yj Hx Hy) as [HX HY].
  exists xi, yj, (score m (xi, yj)).
  repeat split; try assumption.
  - now apply entry_score_grid.
  - apply Hlin.
  - intros Hl. now rewrite <- Hlin.
  - intros Hl. now rewrite Hlin.
Qed.

Lemma C7_linear_score_grid_witness :
  exists w',
    @plot_svc_decision_function Toy.lib 0%nat None Toy.two_figures
    = (Ok tt, w').
Proof.
  destruct (@C7_linear_score_grid Toy.lib 0%nat None Toy.two_figures
              Linear Toy.line (0, 1)%Q (0, 1)%Q (-1) 1 (- (3 # 2)))
    as (w' & t & tgt' & X & Y & P & Hrun & _);
    [reflexivity|reflexivity|reflexivity| |].
  - intros px py. simpl. ring.
  - exists w'. exact Hrun.
Defined.

(** C8.  Leaving [N] out is the same as passing 10.  For every [N] and
    every state, the driver's first call into scikit-learn is
    [make_blobs(n_samples=200, centers=2, random_state=0, cluster_std=0.60)],
    and the data it then fits are a slice of that one data set, which has
    exactly 200 points and 200 labels when the generator returns as many
    samples as it is asked for. *)
Theorem C8_default_count_and_fixed_dataset `{Libraries} :
  (forall n c r s,
     length (fst (blobs n c r s)) = n /\ length (snd (blobs n c r s)) = n) ->
  plot_svm None = plot_svm (Some 10%Z)
  /\ length (fst dataset) = 200%nat /\ length (snd dataset) = 200%nat
  /\ forall N w,
       trace (snd (plot_svm N w)) !! length (trace w)
       = Some (CallMakeBlobs 200 2 0 0.60%Q)
       /\ trace (snd (plot_svm N w)) !! S (length (trace w))
          = Some (CallFit (length (heap w))
                    (np.slice_to (fst dataset) (default 10%Z N))
                    (np.slice_to (snd dataset) (default 10%Z N))).
Proof.
  intros Hblobs. split; [reflexivity|].
  split; [apply Hblobs|]. split; [apply Hblobs|].
  intros N w. rewrite plot_svm_run.
  destruct (libsvm_train _ _ _) as [m|e]; cbn [snd trace];
    (split; rewrite lookup_app_r by lia;
     [now rewrite Nat.sub_diag
     |now replace (S (length (trace w)) - length (trace w))%nat with 1%nat
        by lia]).
Qed.

Lemma C8_default_count_and_fixed_dataset_witness :
  @plot_svm Toy.lib None = @plot_svm Toy.lib (Some 10%Z)
  /\ length (fst (@dataset Toy.lib)) = 200%nat.
Proof.
  destruct (@C8_default_count_and_fixed_dataset Toy.lib) as (Hd & Hx & _).
  - intros n c r s. simpl. now rewrite !length_map, !length_seq.
  - split; [exact Hd|exact Hx].
Defined.

(** C9.  Whatever the renderer is called on, and whether it returns or
    raises, every classifier object is afterwards in the state it was in
    before, the one passed in included, and all the renderer asked of
    scikit-learn are decision scores of that classifier. *)
Theorem C9_classifier_not_mutated `{Libraries}
    (clf : nat) (ax : option nat) (w : World) :
  let w' := snd (plot_svc_decision_function clf ax w) in
  heap w' = heap w
  /\ heap w' !! clf = heap w !! clf
  /\ exists evs, trace w' = trace w ++ evs
                 /\ Forall (is_score_call clf) evs.
Proof.
  intros w'. destruct (rso_renderer clf ax w) as [Hheap Htrace].
  fold w' in Hheap, Htrace. split; [exact Hheap|].
  split; [now rewrite Hheap|exact Htrace].
Qed.

(** C10.  What a call of the driver does to the figures depends on the
    state it starts in only through where the new objects are put: when the
    solver accepts the prefix, one new figure becomes current, its single
    axes is new and is [svm_axes] of the prefix and the model, which has the
    window [-1,4] x [-1,6] as limits and holds the scatter, the contour set
    over that window and the support vector marks, and every axes and
    figure that existed before is as it was; when the solver refuses, no
    figure is opened and nothing is drawn. *)
Theorem C10_fresh_figure_each_call `{Libraries} (N : option Z) :
  let X := np.slice_to (fst dataset) (default 10%Z N) in
  let y := np.slice_to (snd dataset) (default 10%Z N) in
  match libsvm_train Linear X y with
  | Ok m =>
      forall w, exists w',
        plot_svm N w = (Ok tt, w')
        /\ axes w' = axes w ++ [svm_axes X y m]
        /\ figs w' = [length (axes w)] :: figs w
        /\ (forall h a, axes w !! h = Some a -> axes w' !! h = Some a)
        /\ current_extents w' = Some ((-1, 4)%Q, (-1, 6)%Q)
  | Raise e =>
      forall w, exists w',
        plot_svm N w = (Raise e, w')
        /\ axes w' = axes w /\ figs w' = figs w
  end.
Proof.
  intros X y.
  destruct (libsvm_train Linear X y) as [m|e] eqn:Etrain; intros w;
    rewrite plot_svm_run; fold X y; rewrite Etrain;
    eexists; (split; [reflexivity|]); cbn [axes figs].
  - split; [reflexivity|]. split; [reflexivity|].
    split; [intros h a Ha; now apply lookup_app_l_Some|].
    unfold current_extents, plt.gca. cbn [figs axes].
    now rewrite list_lookup_middle.
  - now split.
Qed.

(** * Further properties of the two functions and of their callers *)

(** *** The renderer up to its loops *)

Section renderer_steps.
Context `{Libraries}.

(** Everything before the loops only reads the limits of the current axes
    [h]; the loops and the drawing then run in the state [plt.gca] left. *)
Lemma renderer_unfold clf ax w h w1 cur :
  plt.gca w = (Ok h, w1) ->
  axes w1 !! h = Some cur ->
  plot_svc_decision_function clf ax w
  = (P ← fill_scores clf
           (np.linspace (fst (view_x cur)) (snd (view_x cur)) 30)
           (np.linspace (fst (view_y cur)) (snd (view_y cur)) 30)
           (np.zeros_like
              (snd (np.meshgrid
                      (np.linspace (fst (view_y cur)) (snd (view_y cur)) 30)
                      (np.linspace (fst (view_x cur)) (snd (view_x cur)) 30))));
     Ax.contour (default h ax)
       (snd (np.meshgrid
               (np.linspace (fst (view_y cur)) (snd (view_y cur)) 30)
               (np.linspace (fst (view_x cur)) (snd (view_x cur)) 30)))
       (fst (np.meshgrid
               (np.linspace (fst (view_y cur)) (snd (view_y cur)) 30)
               (np.linspace (fst (view_x cur)) (snd (view_x cur)) 30)))
       P "k" [-1; 0; 1]%Q 0.5%Q ["--"; "-"; "--"]%string) w1.
Proof.
  intros Hg Hcur.
  pose proof (gca_idem _ _ _ Hg) as Hg1.
  unfold plot_svc_decision_function.
  destruct ax as [a|]; simpl default; run.
  - unfold plt.xlim at 1. run. rewrite Hg. run.
    unfold Ax.get_xlim at 1, Ax.get at 1. run. rewrite Hcur. run.
    rewrite (xlim_get_run w1 h cur Hg1 Hcur). run.
    repeat (rewrite (ylim_get_run w1 h cur Hg1 Hcur); run).
    split_mesh. reflexivity.
  - rewrite Hg. run.
    repeat (rewrite (xlim_get_run w1 h cur Hg1 Hcur); run).
    repeat (rewrite (ylim_get_run w1 h cur Hg1 Hcur); run).
    split_mesh. reflexivity.
Qed.

(** On a classifier that was never fitted the loops stop at the first
    lattice point. *)
Lemma fill_scores_unfitted clf k x0 xs y0 ys P w :
  heap w !! clf = Some (mkSVC k None) ->
  fill_scores clf (x0 :: xs) (y0 :: ys) P w
  = (Raise NotFittedError, log w (CallDecisionFunction clf [(x0, y0)])).
Proof.
  intros Hclf. unfold fill_scores, np.enumerate. simpl. run.
  unfold sklearn.decision_function, sklearn.get, sklearn.emit. run.
  rewrite Hclf. run. reflexivity.
Qed.

Lemma linspace_cons start stop :
  exists v rest,
    np.linspace start stop 30 = v :: rest
    /\ np.linspace start stop 30 !! 0%nat = Some v.
Proof.
  pose proof (linspace_length start stop 30) as Hlen.
  destruct (np.linspace start stop 30) as [|v rest]; [discriminate|].
  now exists v, rest.
Qed.

End renderer_steps.

(** X1.  Called on a classifier that was never fitted, the renderer raises
    [NotFittedError] from its first [decision_function] call, which is on
    the first lattice point alone: no further point is scored, nothing is
    drawn on any axes, and no classifier changes.  This holds whatever [ax]
    is, since [ax] is not used before the loops. *)
Theorem renderer_unfitted_stops_at_first_point `{Libraries}
    (clf : nat) (ax : option nat) (w : World) (k : Kernel) (xl yl : Q * Q) :
  heap w !! clf = Some (mkSVC k None) ->
  current_extents w = Some (xl, yl) ->
  exists w' x0 y0,
    plot_svc_decision_function clf ax w = (Raise NotFittedError, w')
    /\ np.linspace (fst xl) (snd xl) 30 !! 0%nat = Some x0
    /\ np.linspace (fst yl) (snd yl) 30 !! 0%nat = Some y0
    /\ (x0 == fst xl)%Q /\ (y0 == fst yl)%Q
    /\ trace w' = trace w ++ [CallDecisionFunction clf [(x0, y0)]]
    /\ axes w' = axes (snd (plt.gca w))
    /\ figs w' = figs (snd (plt.gca w))
    /\ heap w' = heap w.
Proof.
  intros Hclf Hext. unfold current_extents in Hext.
  destruct (gca_total w) as (h & w1 & Hg). rewrite Hg in Hext.
  destruct (axes w1 !! h) as [cur|] eqn:Hcur; [|discriminate].
  simpl in Hext. injection Hext as <- <-.
  destruct (gca_frame _ _ _ Hg) as (Hheap & Htrace & _).
  rewrite (renderer_unfold clf ax w h w1 cur Hg Hcur), Hg. cbn [snd].
  destruct (linspace_cons (fst (view_x cur)) (snd (view_x cur)))
    as (x0 & xs & Ex & Hx0).
  destruct (linspace_cons (fst (view_y cur)) (snd (view_y cur)))
    as (y0 & ys & Ey & Hy0).
  destruct (linspace_first (fst (view_x cur)) (snd (view_x cur)) 30)
    as (x0' & Hx0' & Hxeq); [lia|].
  destruct (linspace_first (fst (view_y cur)) (snd (view_y cur)) 30)
    as (y0' & Hy0' & Hyeq); [lia|].
  rewrite Hx0 in Hx0'. injection Hx0' as <-.
  rewrite Hy0 in Hy0'. injection Hy0' as <-.
  exists (log w1 (CallDecisionFunction clf [(x0, y0)])), x0, y0.
  split.
  { run. rewrite Ex at 1. rewrite Ey at 1.
    rewrite (fill_scores_unfitted clf k) by now rewrite Hheap.
    reflexivity. }
  unfold log. cbn [axes figs heap trace].
  rewrite Htrace, Hheap. repeat split; assumption.
Qed.

Lemma renderer_unfitted_stops_at_first_point_witness :
  exists w',
    @plot_svc_decision_function Toy.lib 0%nat None Toy.unfitted
    = (Raise NotFittedError, w')
    /\ length (trace w') = 1%nat /\ axes w' = [default_axes].
Proof.
  destruct (@renderer_unfitted_stops_at_first_point Toy.lib 0%nat None
              Toy.unfitted Linear (0, 1)%Q (0, 1)%Q)
    as (w' & x0 & y0 & Hrun & _ & _ & _ & _ & Ht & Ha & _);
    [reflexivity|reflexivity|].
  exists w'. split; [exact Hrun|]. split; [now rewrite Ht|exact Ha].
Defined.

Lemma renderer_grid_over_current_axes_witness :
  exists w' X,
    @plot_svc_decision_function Toy.lib 0%nat (Some 0%nat) Toy.two_figures
    = (Ok tt, w')
    /\ length X = 30%nat
    /\ (forall j, (j < 30)%nat -> entry X 29 j = Some 1%Q).
Proof.
  destruct (@renderer_grid_over_current_axes Toy.lib 0%nat (Some 0%nat)
              Toy.two_figures Linear Toy.line (0, 1)%Q (0, 1)%Q)
    as (w' & t & tgt' & X & Y & P & Hrun & _ & _ & _ & HX & _ & _ & Hlast & _);
    [reflexivity|reflexivity|reflexivity|].
  exists w', X. split; [exact Hrun|]. split; [exact HX|exact Hlast].
Defined.

(** *** The renderer when no axes is current *)

Section no_current_axes.
Context `{Libraries}.

Lemma gca_fresh w :
  hd [] (figs w) = [] ->
  plt.gca w
  = (Ok (length (axes w)),
     mkWorld (axes w ++ [default_axes])
       ([length (axes w)] :: tl (figs w)) (heap w) (trace w)).
Proof.
  unfold plt.gca. destruct (figs w) as [|[|a s] fs]; simpl;
    intros Hhd; try discriminate; reflexivity.
Qed.

End no_current_axes.

(** X3.  Called without [ax] while no axes is current (no figure is open,
    or the current figure is still empty), the renderer on a fitted
    classifier makes an axes with matplotlib's default limits, evaluates the
    lattice over [0,1] x [0,1] and draws the contour set on that new axes;
    the axes that existed before are untouched. *)
Theorem renderer_without_axes_uses_default_limits `{Libraries}
    (clf : nat) (w : World) (k : Kernel) (m : Model) :
  heap w !! clf = Some (mkSVC k (Some m)) ->
  hd [] (figs w) = [] ->
  exists w',
    plot_svc_decision_function clf None w = (Ok tt, w')
    /\ axes w'
       = axes w
         ++ [Ax.draw default_axes (decision_contour m (0, 1)%Q (0, 1)%Q)]
    /\ figs w' = [length (axes w)] :: tl (figs w)
    /\ heap w' = heap w
    /\ trace w'
       = trace w ++ score_calls clf (np.linspace 0 1 30) (np.linspace 0 1 30).
Proof.
  intros Hclf Hhd. pose proof (gca_fresh w Hhd) as Hg.
  eexists. split.
  - rewrite (renderer_run clf None w _ _ (mkSVC k (Some m)) m
               default_axes default_axes Hg Hclf eq_refl);
      [reflexivity| |]; cbn [axes default]; now apply list_lookup_middle.
  - cbn [axes figs heap trace default].
    rewrite insert_app_r_alt, Nat.sub_diag by reflexivity.
    repeat split.
Qed.

Lemma renderer_without_axes_uses_default_limits_witness :
  exists w',
    @plot_svc_decision_function Toy.lib 0%nat None Toy.no_figure
    = (Ok tt, w')
    /\ figs w' = [[1%nat]] /\ length (axes w') = 2%nat.
Proof.
  destruct (@renderer_without_axes_uses_default_limits Toy.lib 0%nat
              Toy.no_figure Linear Toy.line)
    as (w' & Hrun & Ha & Hf & _); [reflexivity|reflexivity|].
  exists w'. split; [exact Hrun|]. split; [exact Hf|now rewrite Ha].
Defined.

(** X4.  Called with an axes [ax] while no axes is current, the renderer
    still makes a new current axes, because it reads the limits through
    [plt.xlim()] and [plt.ylim()]: the new axes stays empty with the default
    limits, and the contour set drawn on [ax] is the one of the lattice over
    [0,1] x [0,1], whatever the limits of [ax] are. *)
Theorem renderer_with_ax_still_makes_axes `{Libraries}
    (clf a : nat) (w : World) (k : Kernel) (m : Model) (tgt : Axes) :
  heap w !! clf = Some (mkSVC k (Some m)) ->
  hd [] (figs w) = [] ->
  axes w !! a = Some tgt ->
  exists w',
    plot_svc_decision_function clf (Some a) w = (Ok tt, w')
    /\ axes w'
       = <[a := Ax.draw tgt (decision_contour m (0, 1)%Q (0, 1)%Q)]> (axes w)
         ++ [default_axes]
    /\ figs w' = [length (axes w)] :: tl (figs w)
    /\ heap w' = heap w.
Proof.
  intros Hclf Hhd Htgt. pose proof (gca_fresh w Hhd) as Hg.
  eexists. split.
  - rewrite (renderer_run clf (Some a) w _ _ (mkSVC k (Some m)) m
               default_axes tgt Hg Hclf eq_refl);
      [reflexivity| |]; cbn [axes default].
    + now apply list_lookup_middle.
    + now apply lookup_app_l_Some.
  - cbn [axes figs heap trace default].
    rewrite insert_app_l by (now apply lookup_lt_Some in Htgt).
    repeat split.
Qed.

Lemma renderer_with_ax_still_makes_axes_witness :
  exists w',
    @plot_svc_decision_function Toy.lib 0%nat (Some 0%nat) Toy.no_figure
    = (Ok tt, w')
    /\ figs w' = [[1%nat]] /\ axes w' !! 1%nat = Some default_axes.
Proof.
  destruct (@renderer_with_ax_still_makes_axes Toy.lib 0%nat 0%nat
              Toy.no_figure Linear Toy.line
              (mkAxes (-1, 4)%Q (-1, 6)%Q false false []))
    as (w' & Hrun & Ha & Hf & _); [reflexivity|reflexivity|reflexivity|].
  exists w'. split; [exact Hrun|]. split; [exact Hf|now rewrite Ha].
Defined.

(** *** What a call of the renderer leaves in place *)

Section renderer_frame.
Context `{Libraries}.

Lemma gca_same_figs w w' h :
  plt.gca w = (Ok h, w) -> figs w' = figs w -> plt.gca w' = (Ok h, w').
Proof.
  unfold plt.gca. intros Hg Hf. rewrite Hf.
  destruct (figs w) as [|[|a s] fs] eqn:E.
  - injection Hg as _ Hw. apply (f_equal figs) in Hw. simpl in Hw.
    rewrite E in Hw. discriminate.
  - injection Hg as _ Hw. apply (f_equal figs) in Hw. simpl in Hw.
    rewrite E in Hw. discriminate.
  - now injection Hg as ->.
Qed.

Lemma gca_current w h s fs :
  figs w = (h :: s) :: fs -> plt.gca w = (Ok h, w).
Proof. unfold plt.gca. now intros ->. Qed.

End renderer_frame.

(** X5.  A call of the renderer on a fitted classifier never changes
    which axes is current nor the list of figures (beyond the axes [plt.gca]
    makes when there is none), and it keeps the autoscale switches of the
    axes it draws on; where a switch is off, as after [plt.xlim(l, r)], the
    limits of that axis are after the call what they were before. *)
Theorem renderer_keeps_current_axes_and_set_limits `{Libraries}
    (clf : nat) (ax : option nat) (w : World) (k : Kernel) (m : Model)
    (xl yl : Q * Q) :
  heap w !! clf = Some (mkSVC k (Some m)) ->
  current_extents w = Some (xl, yl) ->
  valid_ax ax w = true ->
  exists w' h t tgt tgt',
    plot_svc_decision_function clf ax w = (Ok tt, w')
    /\ fst (plt.gca w) = Ok h
    /\ plt.gca w' = (Ok h, w')
    /\ figs w' = figs (snd (plt.gca w))
    /\ t = default h ax
    /\ axes (snd (plt.gca w)) !! t = Some tgt
    /\ axes w' !! t = Some tgt'
    /\ autoscalex_on tgt' = autoscalex_on tgt
    /\ autoscaley_on tgt' = autoscaley_on tgt
    /\ (autoscalex_on tgt = false -> view_x tgt' = view_x tgt)
    /\ (autoscaley_on tgt = false -> view_y tgt' = view_y tgt).
Proof.
  intros Hclf Hext Hax.
  destruct (renderer_total clf ax w k m xl yl Hclf Hext Hax)
    as (h & w1 & tgt & Hg & Htgt & _ & Hrun).
  eexists _, h, (default h ax), tgt, _.
  split; [exact Hrun|]. rewrite Hg. cbn [fst snd axes figs].
  split; [reflexivity|].
  split; [apply (gca_same_figs w1 _ h (gca_idem _ _ _ Hg)); reflexivity|].
  split; [reflexivity|]. split; [reflexivity|]. split; [exact Htgt|].
  split; [apply list_lookup_insert_eq; now apply lookup_lt_Some in Htgt|].
  unfold Ax.draw. cbn [autoscalex_on autoscaley_on view_x view_y].
  split; [reflexivity|]. split; [reflexivity|].
  split; intros ->; reflexivity.
Qed.

Lemma renderer_keeps_current_axes_and_set_limits_witness :
  exists w',
    @plot_svc_decision_function Toy.lib 0%nat None Toy.window = (Ok tt, w')
    /\ @plt.gca w' = (Ok 0%nat, w').
Proof.
  destruct (@renderer_keeps_current_axes_and_set_limits Toy.lib 0%nat None
              Toy.window Linear Toy.line (-1, 4)%Q (-1, 6)%Q)
    as (w' & h & t & tgt & tgt' & Hrun & Hh & Hg & _);
    [reflexivity|reflexivity|reflexivity|].
  exists w'. split; [exact Hrun|].
  injection Hh as <-. exact Hg.
Defined.

(** X6.  Two calls of the renderer in a row on a current axes whose limits
    were set by hand evaluate the same lattice twice and draw the same
    contour set twice: the second call scores all 900 points again and adds
    its contour set after the first one's, on the same axes, whose limits
    stay as they were. *)
Theorem renderer_twice_accumulates `{Libraries}
    (clf h : nat) (w : World) (k : Kernel) (m : Model) (cur : Axes)
    (s : list nat) (fs : list (list nat)) :
  heap w !! clf = Some (mkSVC k (Some m)) ->
  figs w = (h :: s) :: fs ->
  axes w !! h = Some cur ->
  autoscalex_on cur = false ->
  autoscaley_on cur = false ->
  let c := decision_contour m (view_x cur) (view_y cur) in
  let calls :=
    score_calls clf
      (np.linspace (fst (view_x cur)) (snd (view_x cur)) 30)
      (np.linspace (fst (view_y cur)) (snd (view_y cur)) 30) in
  (plot_svc_decision_function clf None;;
   plot_svc_decision_function clf None) w
  = (Ok tt,
     mkWorld
       (<[h := mkAxes (view_x cur) (view_y cur) false false
                 (artists cur ++ [c; c])]> (axes w))
       (figs w) (heap w) (trace w ++ calls ++ calls)).
Proof.
  intros Hclf Hfigs Hcur Hx Hy c calls.
  pose proof (gca_current w h s fs Hfigs) as Hg.
  run.
  rewrite (renderer_run clf None w h w (mkSVC k (Some m)) m cur cur
             Hg Hclf eq_refl Hcur Hcur).
  cbn [default]. fold c calls.
  set (cur1 := Ax.draw cur c).
  set (w1 := mkWorld (<[h := cur1]> (axes w)) (figs w) (heap w)
               (trace w ++ calls)).
  assert (Hcur1 : axes w1 !! h = Some cur1).
  { unfold w1. cbn [axes]. apply list_lookup_insert_eq.
    now apply lookup_lt_Some in Hcur. }
  assert (Hg1 : plt.gca w1 = (Ok h, w1))
    by (apply (gca_same_figs w w1 h Hg); reflexivity).
  rewrite (renderer_run clf None w1 h w1 (mkSVC k (Some m)) m cur1 cur1
             Hg1 Hclf eq_refl Hcur1 Hcur1).
  unfold w1, cur1, Ax.draw. cbn [axes figs heap trace default view_x view_y
    autoscalex_on autoscaley_on artists].
  rewrite Hx, Hy. fold c calls.
  rewrite list_insert_insert_eq, <- !app_assoc. reflexivity.
Qed.

Lemma renderer_twice_accumulates_witness :
  exists w',
    (@plot_svc_decision_function Toy.lib 0%nat None;;
     @plot_svc_decision_function Toy.lib 0%nat None) Toy.window
    = (Ok tt, w')
    /\ length (trace w') = 1800%nat.
Proof.
  eexists. split.
  - apply (@renderer_twice_accumulates Toy.lib 0%nat 0%nat Toy.window
             Linear Toy.line (mkAxes (-1, 4)%Q (-1, 6)%Q false false [])
             [] []); reflexivity.
  - cbn [trace]. rewrite !length_app, !score_calls_length, !linspace_length.
    reflexivity.
Defined.

(** *** The cell that scatters the data and draws the boundary *)

(** X7.  In the cell [plt.scatter(...); plot_svc_decision_function(clf)]
    both drawings go to the same current axes, the scatter first, and the
    lattice of the contour set spans the limits that axes has once the data
    are scattered: the autoscaled view of everything drawn so far on an axis
    still on autoscale, the limits set by hand otherwise. *)
Theorem scatter_then_boundary_spans_view_after_scatter `{Libraries}
    (X : list point) (y : list label) (clf : nat) (w : World)
    (k : Kernel) (m : Model) (h : nat) (w1 : World) (cur : Axes) :
  heap w !! clf = Some (mkSVC k (Some m)) ->
  plt.gca w = (Ok h, w1) ->
  axes w1 !! h = Some cur ->
  let points :=
    PathCollection (np.col0 X) (np.col1 X) (ByLabel y) 50%Q
      (Some "winter"%string) None None in
  let seen := Ax.draw cur points in
  exists w' a',
    scatter_then_boundary X y clf w = (Ok tt, w')
    /\ axes w' !! h = Some a'
    /\ artists a'
       = artists cur
         ++ [points; decision_contour m (view_x seen) (view_y seen)]
    /\ view_x seen
       = (if autoscalex_on cur
          then fst (autoscale_view (artists cur ++ [points]))
          else view_x cur)
    /\ view_y seen
       = (if autoscaley_on cur
          then snd (autoscale_view (artists cur ++ [points]))
          else view_y cur)
    /\ (forall i, i <> h -> axes w' !! i = axes w1 !! i)
    /\ figs w' = figs w1
    /\ trace w'
       = trace w
         ++ score_calls clf
              (np.linspace (fst (view_x seen)) (snd (view_x seen)) 30)
              (np.linspace (fst (view_y seen)) (snd (view_y seen)) 30).
Proof.
  intros Hclf Hg Hcur points seen.
  destruct (gca_frame _ _ _ Hg) as (Hheap & Htrace & _).
  pose proof (gca_idem _ _ _ Hg) as Hg1.
  set (w2 := with_axes w1 (<[h := seen]> (axes w1))).
  assert (Hrun1 : plt.scatter (np.col0 X) (np.col1 X) (ByLabel y) 50%Q
                    (Some "winter"%string) None None w = (Ok tt, w2)).
  { unfold plt.scatter. run. rewrite Hg. run. unfold Ax.scatter.
    now rewrite (add_artist_run w1 h cur) by exact Hcur. }
  assert (Hseen : axes w2 !! h = Some seen).
  { unfold w2. cbn [with_axes axes]. apply list_lookup_insert_eq.
    now apply lookup_lt_Some in Hcur. }
  assert (Hg2 : plt.gca w2 = (Ok h, w2))
    by (apply (gca_same_figs w1 w2 h Hg1); reflexivity).
  assert (Hclf2 : heap w2 !! clf = Some (mkSVC k (Some m)))
    by (unfold w2; cbn [with_axes heap]; now rewrite Hheap).
  eexists _, _. split.
  { unfold scatter_then_boundary. run. rewrite Hrun1. run.
    apply (renderer_run clf None w2 h w2 (mkSVC k (Some m)) m seen seen
             Hg2 Hclf2 eq_refl Hseen Hseen). }
  cbn [axes figs heap trace default]. clear Hrun1 Hseen Hg2 Hclf2.
  unfold w2, with_axes. cbn [axes figs trace].
  split; [apply list_lookup_insert_eq; rewrite length_insert;
          now apply lookup_lt_Some in Hcur|].
  split.
  { unfold Ax.draw at 1. cbn [artists]. unfold seen at 1, Ax.draw at 1.
    cbn [artists]. now rewrite <- app_assoc. }
  split; [reflexivity|]. split; [reflexivity|].
  split; [intros i Hi; now rewrite !list_lookup_insert_ne by congruence|].
  split; [reflexivity|]. now rewrite Htrace.
Qed.

Lemma scatter_then_boundary_spans_view_after_scatter_witness :
  exists w' a',
    @scatter_then_boundary Toy.lib [(0, 0); (2, 3)]%Q [0; 1]%nat 0%nat
      Toy.two_figures = (Ok tt, w')
    /\ axes w' !! 1%nat = Some a'
    /\ length (artists a') = 2%nat.
Proof.
  destruct (@scatter_then_boundary_spans_view_after_scatter Toy.lib
              [(0, 0); (2, 3)]%Q [0; 1]%nat 0%nat Toy.two_figures
              Linear Toy.line 1%nat Toy.two_figures default_axes)
    as (w' & a' & Hrun & Ha & Harts & _);
    [reflexivity|reflexivity|reflexivity|].
  exists w', a'. split; [exact Hrun|]. split; [exact Ha|].
  now rewrite Harts.
Defined.

(** *** The driver over all counts, and called twice *)

Section driver_more.
Context `{Libraries}.

(** The run of the driver in terms of the sample it fits. *)
Lemma plot_svm_run_sample N w :
  plot_svm N w
  = match libsvm_train Linear (fst (driver_sample N)) (snd (driver_sample N))
    with
    | Ok m =>
        (Ok tt,
         mkWorld
           (axes w
            ++ [svm_axes (fst (driver_sample N)) (snd (driver_sample N)) m])
           ([length (axes w)] :: figs w)
           (heap w ++ [mkSVC Linear (Some m)])
           (trace w
            ++ [CallMakeBlobs 200 2 0 0.60%Q;
                CallFit (length (heap w)) (fst (driver_sample N))
                  (snd (driver_sample N))]
            ++ score_calls (length (heap w)) (np.linspace (-1) 4 30)
                 (np.linspace (-1) 6 30)))
    | Raise e =>
        (Raise e,
         mkWorld (axes w) (figs w) (heap w ++ [mkSVC Linear None])
           (trace w
            ++ [CallMakeBlobs 200 2 0 0.60%Q;
                CallFit (length (heap w)) (fst (driver_sample N))
                  (snd (driver_sample N))]))
    end.
Proof. apply plot_svm_run. Qed.

(** The driver's result depends on [N] only through the sample. *)
Lemma plot_svm_same_sample N1 N2 w :
  driver_sample N1 = driver_sample N2 -> plot_svm N1 w = plot_svm N2 w.
Proof. intros E. now rewrite !plot_svm_run_sample, E. Qed.

End driver_more.

Lemma slice_to_all {A} (l : list A) (N : Z) :
  (Z.of_nat (length l) <= N)%Z -> np.slice_to l N = l.
Proof.
  intros HN. unfold np.slice_to.
  destruct (N <? 0)%Z eqn:E; [apply Z.ltb_lt in E; lia|].
  apply take_ge. lia.
Qed.

Lemma slice_to_from_end {A} (l : list A) (N : Z) :
  (N < 0)%Z ->
  np.slice_to l N = np.slice_to l (Z.max 0 (Z.of_nat (length l) + N)).
Proof.
  intros HN. unfold np.slice_to.
  destruct (N <? 0)%Z eqn:E; [|apply Z.ltb_ge in E; lia].
  destruct (Z.max 0 (Z.of_nat (length l) + N) <? 0)%Z eqn:E';
    [apply Z.ltb_lt in E'; lia|].
  f_equal. lia.
Qed.

Lemma slice_to_clip {A} (l : list A) (N : Z) :
  np.slice_to l N
  = take (if (N <? 0)%Z
          then Z.to_nat (Z.of_nat (length l) + N)
          else min (Z.to_nat N) (length l)) l.
Proof.
  unfold np.slice_to. destruct (N <? 0)%Z; [reflexivity|].
  destruct (Nat.le_gt_cases (Z.to_nat N) (length l)) as [Hle|Hgt].
  - now rewrite Nat.min_l.
  - rewrite Nat.min_r, !take_ge by lia. reflexivity.
Qed.

Lemma combine_columns (l : list point) : combine (map fst l) (map snd l) = l.
Proof.
  induction l as [|[a b] l IH]; simpl; [reflexivity|]. now rewrite IH.
Qed.

(** X8.  Every count of 200 or more does what 200 does: the slice is
    clipped to the data set, so the driver fits, scatters and draws from all
    200 points, in any state. *)
Theorem plot_svm_count_clipped_at_200 `{Libraries} (N : Z) (w : World) :
  (forall n c r s,
     length (fst (blobs n c r s)) = n /\ length (snd (blobs n c r s)) = n) ->
  (200 <= N)%Z ->
  plot_svm (Some N) w = plot_svm (Some 200%Z) w
  /\ driver_sample (Some N) = dataset.
Proof.
  intros Hblobs HN.
  assert (Hx : length (fst dataset) = 200%nat) by apply Hblobs.
  assert (Hy : length (snd dataset) = 200%nat) by apply Hblobs.
  assert (Hs : forall M, (200 <= M)%Z -> driver_sample (Some M) = dataset).
  { intros M HM. unfold driver_sample. simpl default.
    rewrite !slice_to_all by lia. now destruct dataset. }
  split; [|now apply Hs].
  apply plot_svm_same_sample. rewrite !Hs by lia. reflexivity.
Qed.

Lemma toy_blobs_shape n c r s :
  length (fst (Toy.blobs n c r s)) = n /\ length (snd (Toy.blobs n c r s)) = n.
Proof. simpl. now rewrite !length_map, !length_seq. Qed.

Lemma plot_svm_count_clipped_at_200_witness :
  @plot_svm Toy.lib (Some 1000%Z) Toy.empty
  = @plot_svm Toy.lib (Some 200%Z) Toy.empty.
Proof.
  apply (@plot_svm_count_clipped_at_200 Toy.lib 1000%Z Toy.empty).
  - exact toy_blobs_shape.
  - lia.
Defined.

(** X9.  A negative count is not refused: [N < 0] does what the count
    [200 + N] does (what 0 does once [N <= -200]), since the slice [[:N]]
    then drops the last [-N] rows and labels. *)
Theorem plot_svm_negative_count_from_end `{Libraries} (N : Z) (w : World) :
  (forall n c r s,
     length (fst (blobs n c r s)) = n /\ length (snd (blobs n c r s)) = n) ->
  (N < 0)%Z ->
  plot_svm (Some N) w = plot_svm (Some (Z.max 0 (200 + N))) w
  /\ length (fst (driver_sample (Some N))) = Z.to_nat (200 + N)
  /\ length (snd (driver_sample (Some N))) = Z.to_nat (200 + N).
Proof.
  intros Hblobs HN.
  assert (Hx : length (fst dataset) = 200%nat) by apply Hblobs.
  assert (Hy : length (snd dataset) = 200%nat) by apply Hblobs.
  split.
  - apply plot_svm_same_sample. unfold driver_sample. simpl default.
    rewrite (slice_to_from_end (fst dataset)), (slice_to_from_end (snd dataset))
      by exact HN.
    rewrite Hx, Hy. reflexivity.
  - unfold driver_sample, np.slice_to. simpl default. cbn [fst snd].
    destruct (N <? 0)%Z eqn:E; [|apply Z.ltb_ge in E; lia].
    rewrite !length_take, Hx, Hy. lia.
Qed.

Lemma plot_svm_negative_count_from_end_witness :
  @plot_svm Toy.lib (Some (-196)%Z) Toy.empty
  = @plot_svm Toy.lib (Some 4%Z) Toy.empty.
Proof.
  apply (@plot_svm_negative_count_from_end Toy.lib (-196)%Z Toy.empty).
  - exact toy_blobs_shape.
  - lia.
Defined.

(** X10.  For every integer [N], negative and oversized ones included,
    what the driver hands to [fit] is a prefix of the data set: the points
    are the first so many points, the labels the first as many labels, point
    [i] still with label [i], and never more than the 200 there are. *)
Theorem plot_svm_fits_a_paired_prefix `{Libraries} (N : option Z) (w : World) :
  (forall n c r s,
     length (fst (blobs n c r s)) = n /\ length (snd (blobs n c r s)) = n) ->
  exists X y n,
    trace (snd (plot_svm N w)) !! S (length (trace w))
    = Some (CallFit (length (heap w)) X y)
    /\ (n <= 200)%nat
    /\ X = take n (fst dataset) /\ y = take n (snd dataset)
    /\ length X = n /\ length y = n
    /\ combine X y = take n (combine (fst dataset) (snd dataset)).
Proof.
  intros Hblobs.
  assert (Hx : length (fst dataset) = 200%nat) by apply Hblobs.
  assert (Hy : length (snd dataset) = 200%nat) by apply Hblobs.
  pose proof (slice_to_clip (fst dataset) (default 10%Z N)) as Hn.
  pose proof (slice_to_clip (snd dataset) (default 10%Z N)) as Hn'.
  rewrite Hx in Hn. rewrite Hy in Hn'.
  set (n := if (default 10%Z N <? 0)%Z
            then Z.to_nat (Z.of_nat 200 + default 10%Z N)
            else min (Z.to_nat (default 10%Z N)) 200) in *.
  assert (Hle : (n <= 200)%nat).
  { unfold n. destruct (default 10%Z N <? 0)%Z eqn:E; [|lia].
    apply Z.ltb_lt in E. lia. }
  clearbody n.
  exists (take n (fst dataset)), (take n (snd dataset)), n.
  split.
  { rewrite plot_svm_run_sample. unfold driver_sample. cbn [fst snd].
    rewrite Hn, Hn'.
    destruct (libsvm_train _ _ _); cbn [snd trace];
      rewrite lookup_app_r by lia;
      now replace (S (length (trace w)) - length (trace w))%nat with 1%nat
        by lia. }
  split; [lia|]. split; [reflexivity|]. split; [reflexivity|].
  split; [rewrite length_take; lia|]. split; [rewrite length_take; lia|].
  clear. generalize (fst dataset) (snd dataset).
  induction n as [|n IH]; intros [|p l1] [|q l2]; simpl; try reflexivity.
  now rewrite IH.
Qed.

Lemma plot_svm_fits_a_paired_prefix_witness :
  exists X y n,
    trace (snd (@plot_svm Toy.lib (Some (-3)%Z) Toy.empty)) !! 1%nat
    = Some (CallFit 0 X y)
    /\ (n <= 200)%nat /\ length X = n /\ length y = n.
Proof.
  destruct (@plot_svm_fits_a_paired_prefix Toy.lib (Some (-3)%Z) Toy.empty
              toy_blobs_shape)
    as (X & y & n & Hfit & Hle & _ & _ & HX & Hy & _).
  exists X, y, n. repeat split; assumption.
Defined.

(** X11.  Whether it returns or raises, a call of the driver adds exactly
    one classifier object, fitted exactly when the solver accepted the
    sample, and leaves every classifier that existed before as it was; its
    calls into scikit-learn are one [make_blobs], one [fit] on the new
    object, and then decision scores of the new object only: 900 of them
    when it returns, none when it raises. *)
Theorem plot_svm_only_uses_its_own_classifier `{Libraries}
    (N : option Z) (w : World) :
  exists w' r fitted_model evs,
    plot_svm N w = (r, w')
    /\ heap w' = heap w ++ [mkSVC Linear fitted_model]
    /\ (forall c o, heap w !! c = Some o -> heap w' !! c = Some o)
    /\ match r with
       | Ok _ =>
           libsvm_train Linear (fst (driver_sample N)) (snd (driver_sample N))
           = match fitted_model with
             | Some m => Ok m
             | None => Raise ValueError
             end
           /\ fitted_model <> None /\ length evs = 900%nat
       | Raise e =>
           libsvm_train Linear (fst (driver_sample N)) (snd (driver_sample N))
           = Raise e
           /\ fitted_model = None /\ evs = []
       end
    /\ trace w'
       = trace w
         ++ CallMakeBlobs 200 2 0 0.60%Q
            :: CallFit (length (heap w)) (fst (driver_sample N))
                 (snd (driver_sample N))
            :: evs
    /\ Forall (is_score_call (length (heap w))) evs.
Proof.
  rewrite plot_svm_run_sample.
  destruct (libsvm_train Linear _ _) as [m|e] eqn:Etrain.
  - eexists _, _, (Some m),
      (score_calls (length (heap w)) (np.linspace (-1) 4 30)
         (np.linspace (-1) 6 30)).
    split; [reflexivity|]. cbn [heap trace].
    split; [reflexivity|].
    split; [intros c o Hc; now apply lookup_app_l_Some|].
    split.
    { split; [reflexivity|]. split; [discriminate|].
      rewrite score_calls_length, !linspace_length. reflexivity. }
    split; [reflexivity|].
    eapply Forall_impl; [apply score_calls_single|].
    intros ev (p & ->). now exists [p].
  - eexists _, _, None, []. split; [reflexivity|]. cbn [heap trace].
    split; [reflexivity|].
    split; [intros c o Hc; now apply lookup_app_l_Some|].
    repeat split. constructor.
Qed.

(** X12.  When the solver accepts the sample, the last thing the driver
    draws on its new axes, after the contour set, is the overlay of the
    support vectors of the model now stored in the classifier it fitted:
    one unfilled marker of size 200 with a black edge per support vector,
    at that support vector's coordinates. *)
Theorem plot_svm_marks_support_vectors `{Libraries}
    (N : option Z) (w : World) (m : Model) :
  libsvm_train Linear (fst (driver_sample N)) (snd (driver_sample N)) = Ok m ->
  exists w' a xs ys drawn_before,
    plot_svm N w = (Ok tt, w')
    /\ heap w' !! length (heap w) = Some (mkSVC Linear (Some m))
    /\ axes w' !! length (axes w) = Some a
    /\ artists a
       = drawn_before
         ++ [PathCollection xs ys (Named "none") 200%Q None (Some 1%Q)
               (Some "k"%string)]
    /\ last drawn_before = Some (decision_contour m (-1, 4)%Q (-1, 6)%Q)
    /\ combine xs ys = support_vectors m
    /\ length xs = length (support_vectors m)
    /\ length ys = length (support_vectors m).
Proof.
  intros Htrain. rewrite plot_svm_run_sample, Htrain.
  eexists _, _, _, _, [_; _]. split; [reflexivity|]. cbn [heap axes].
  split; [now apply list_lookup_middle|].
  split; [now apply list_lookup_middle|].
  unfold svm_axes. cbn [artists].
  split; [reflexivity|]. split; [reflexivity|].
  unfold np.col0, np.col1.
  split; [apply combine_columns|]. now rewrite !length_map.
Qed.

Lemma plot_svm_marks_support_vectors_witness :
  exists w' a xs ys,
    @plot_svm Toy.lib None Toy.empty = (Ok tt, w')
    /\ axes w' !! 0%nat = Some a
    /\ last (artists a)
       = Some (PathCollection xs ys (Named "none") 200%Q None (Some 1%Q)
                 (Some "k"%string))
    /\ combine xs ys = [(0, 0); (1, 4)]%Q.
Proof.
  destruct (@plot_svm_marks_support_vectors Toy.lib None Toy.empty
              (mkModel (fun p => snd p - fst p - (3 # 2))%Q
                 [(0, 0); (1, 4)]%Q))
    as (w' & a & xs & ys & before & Hrun & _ & Ha & Harts & _ & Hsv & _);
    [reflexivity|].
  exists w', a, xs, ys. split; [exact Hrun|]. split; [exact Ha|].
  split; [|exact Hsv]. rewrite Harts. apply last_snoc.
Defined.

(** X13.  Two calls of the driver in a row, as in [plot_svm(); plot_svm(200)]:
    when the solver accepts both samples there are two new figures, the
    second one current, each with its own axes holding what that call alone
    would draw, and two new classifiers; the first call's axes is not
    touched by the second call.  When the solver refuses the second sample
    the first figure stays as the first call left it and no second figure is
    opened; when it refuses the first sample the second call is not made. *)
Theorem plot_svm_twice_draws_on_separate_figures `{Libraries}
    (N1 N2 : option Z) (w : World) :
  let s1 := driver_sample N1 in
  let s2 := driver_sample N2 in
  match libsvm_train Linear (fst s1) (snd s1) with
  | Raise e => plot_svm_twice N1 N2 w = plot_svm N1 w
  | Ok m1 =>
      match libsvm_train Linear (fst s2) (snd s2) with
      | Ok m2 =>
          exists w',
            plot_svm_twice N1 N2 w = (Ok tt, w')
            /\ axes w'
               = axes w
                 ++ [svm_axes (fst s1) (snd s1) m1;
                     svm_axes (fst s2) (snd s2) m2]
            /\ figs w' = [S (length (axes w))] :: [length (axes w)] :: figs w
            /\ heap w'
               = heap w ++ [mkSVC Linear (Some m1); mkSVC Linear (Some m2)]
            /\ length (trace w') = (length (trace w) + 1804)%nat
      | Raise e =>
          exists w',
            plot_svm_twice N1 N2 w = (Raise e, w')
            /\ axes w' = axes w ++ [svm_axes (fst s1) (snd s1) m1]
            /\ figs w' = [length (axes w)] :: figs w
            /\ heap w'
               = heap w ++ [mkSVC Linear (Some m1); mkSVC Linear None]
      end
  end.
Proof.
  intros s1 s2. unfold plot_svm_twice. rewrite run_bind.
  rewrite (plot_svm_run_sample N1 w). fold s1.
  destruct (libsvm_train Linear (fst s1) (snd s1)) as [m1|e1];
    [|reflexivity].
  rewrite plot_svm_run_sample. fold s2.
  destruct (libsvm_train Linear (fst s2) (snd s2)) as [m2|e2];
    eexists; (split; [reflexivity|]); cbn [axes figs heap trace].
  - split; [now rewrite <- app_assoc|].
    split; [rewrite length_app; simpl length; now rewrite Nat.add_1_r|].
    split; [now rewrite <- app_assoc|].
    rewrite !length_app, !score_calls_length, !linspace_length.
    simpl length. lia.
  - split; [reflexivity|]. split; [reflexivity|]. now rewrite <- app_assoc.
Qed.
